(** * texrecon.py: pose manifest, intrinsics normalisation, camera files

    A shallow embedding of [rig_calibrator/bin/texrecon.py]: the three
    functions that carry data ([parse_images_and_camera_poses],
    [convert_intrinsics_to_texrecon], [create_texrecon_cameras]) together
    with the [str], [re] and [os.path] operations they call, and after them
    the rest of the script ([sanity_checks], [mkdir_p], [format_cmd],
    [run_cmd], [undistort_images], [run_texrecon] and the main block), whose
    dealings with directories and external programs are parameters.

    Conventions.
    - A Python [str] is a [string]; a character is a code point below 256.
    - A Python [float] is a binary64 [PrimFloat.float].
    - A raised exception is a value of [exn]; a function that may raise
      returns a [result].  Code that prints or writes files runs in [io],
      which threads the [world] (file system and standard output) and keeps
      the world reached so far when an exception escapes.
    - A file is not its path: the world resolves a path to the file it
      names, so that two spellings of one file share their text, and it
      decides whether a file may be opened for writing.
    - The builtins [float(s)] and ["%0.17g" % x] are parameters of the
      development; [PyRef] gives executable versions used in the examples. *)

From Stdlib Require Import ZArith String Ascii List Bool Lia.
From Stdlib Require Import Floats.PrimFloat Floats.FloatOps Floats.SpecFloat
  Floats.FloatAxioms.
From stdpp Require Import gmap strings list.

Local Open Scope string_scope.

(** ** Exceptions and the two monads *)

Inductive exn : Type :=
| Exception (msg : string)          (* raise Exception(msg) *)
| ValueError (tok : string)         (* float(tok) on a malformed token *)
| ZeroDivisionError                 (* x / 0.0 *)
| IndexError                        (* l[i] out of range *)
| UnboundLocalError (var : string)  (* a local read before assignment *)
| FileNotFoundError (path : string) (* open(path, 'r') on a missing file *)
| OSError (path : string)           (* open(path, 'w') that the system refuses *)
| SystemExit (status : Z).          (* sys.exit(status) *)

Inductive result (A : Type) : Type :=
| Ok (a : A)
| Raise (e : exn).
Arguments Ok {A} a.
Arguments Raise {A} e.

Definition bind {A B} (m : result A) (k : A -> result B) : result B :=
  match m with
  | Ok a => k a
  | Raise e => Raise e
  end.

Declare Scope py_scope.
Delimit Scope py_scope with py.
Notation "x <- m ;; k" := (bind m (fun x => k))
  (at level 100, m at next level, right associativity) : py_scope.

(** [for x in xs: s = body(x, s)], stopping at the first exception. *)
Fixpoint for_each {A S} (xs : list A) (body : A -> S -> result S) (s : S)
  : result S :=
  match xs with
  | [] => Ok s
  | x :: xs' => bind (body x s) (for_each xs' body)
  end.

(** The file system and the lines printed so far.

    [files] holds the text of every regular file, as text-mode [open] sees
    it, under the file itself: one key for one file, however many paths
    lead to it.  [realpath] is the name resolution in force, the file that
    a path names or would name once created, in the sense of
    [os.path.realpath]: [u/a.cam], [u//a.cam] and [./u/a.cam] name one file,
    and so do a link and its target.  [writable] tells whether the system
    lets a path be opened for writing, given the files there are: it does
    not when a directory of the path is missing or may not be written, or
    when the path is that of a directory or of a read-only file.  Printing
    and writing to a file change neither [realpath] nor [writable]; the
    system calls and the external programs may change both. *)
Record world : Type := World {
  realpath : string -> string;
  writable : gmap string string -> string -> bool;
  files : gmap string string;
  stdout : list string
}.

(** The text of the file that the path [p] names, if there is one. *)
Definition file_at (w : world) (p : string) : option string :=
  files w !! realpath w p.

Definition io (A : Type) : Type := world -> result A * world.

Definition io_ret {A} (a : A) : io A := fun w => (Ok a, w).
Definition io_raise {A} (e : exn) : io A := fun w => (Raise e, w).
Definition io_bind {A B} (m : io A) (k : A -> io B) : io B :=
  fun w =>
    match m w with
    | (Ok a, w') => k a w'
    | (Raise e, w') => (Raise e, w')
    end.
Definition io_lift {A} (r : result A) : io A := fun w => (r, w).

Declare Scope io_scope.
Delimit Scope io_scope with io.
Notation "x <- m ;; k" := (io_bind m (fun x => k))
  (at level 100, m at next level, right associativity) : io_scope.
Notation "m ;;; k" := (io_bind m (fun _ => k))
  (at level 100, right associativity) : io_scope.

Fixpoint io_for_each {A} (xs : list A) (body : A -> io unit) : io unit :=
  match xs with
  | [] => io_ret tt
  | x :: xs' => io_bind (body x) (fun _ => io_for_each xs' body)
  end.

(** [print(s)] *)
Definition print (s : string) : io unit :=
  fun w => (Ok tt, World (realpath w) (writable w) (files w) (stdout w ++ [s])).

(** [os.path.exists(p)], for regular files. *)
Definition path_exists (p : string) : io bool :=
  fun w => (Ok (bool_decide (is_Some (file_at w p))), w).

(** [open(p, "r")] followed by reading the whole text. *)
Definition open_r (p : string) : io string :=
  fun w =>
    match file_at w p with
    | Some text => (Ok text, w)
    | None => (Raise (FileNotFoundError p), w)
    end.

(** [open(p, "w")]: the file that [p] names is created, or truncated when
    it exists, unless the system refuses, which raises [OSError] (as
    [FileNotFoundError], [PermissionError] or [IsADirectoryError]) and
    leaves everything as it was. *)
Definition open_w (p : string) : io unit :=
  fun w =>
    if writable w (files w) p
    then (Ok tt,
          World (realpath w) (writable w) (<[realpath w p := ""]> (files w))
            (stdout w))
    else (Raise (OSError p), w).

(** [g.write(s)] on the file opened at [p]: the text is appended; a write
    to a file that is open is taken to succeed. *)
Definition write (p s : string) : io unit :=
  fun w =>
    (Ok tt,
     World (realpath w) (writable w)
       (<[realpath w p := default "" (file_at w p) +:+ s]> (files w))
       (stdout w)).

(** ** [str] methods and [re] patterns used by the script *)

Module PyStr.

Definition nl_char : ascii := ascii_of_nat 10.
Definition nl : string := String nl_char "".

(** [c.isspace()] on code points below 256: TAB..CR, FS..US, space, NEL,
    NBSP.  The same class is what [\s] matches in [re]. *)
Definition isspace (c : ascii) : bool :=
  let n := nat_of_ascii c in
  (((9 <=? n) && (n <=? 13)) || ((28 <=? n) && (n <=? 32))
   || (n =? 133) || (n =? 160))%nat.

(** [s.rstrip()] *)
Fixpoint rstrip (s : string) : string :=
  match s with
  | "" => ""
  | String c s' =>
      match rstrip s' with
      | "" => if isspace c then "" else String c ""
      | r => String c r
      end
  end.

(** [s.rstrip(ch)] for a single character [ch]. *)
Fixpoint rstrip_char (ch : ascii) (s : string) : string :=
  match s with
  | "" => ""
  | String c s' =>
      match rstrip_char ch s' with
      | "" => if Ascii.eqb c ch then "" else String c ""
      | r => String c r
      end
  end.

(** [s.split()]: the maximal runs of non-whitespace characters. *)
Fixpoint split (s : string) : list string :=
  match s with
  | "" => []
  | String c s' =>
      if isspace c then split s'
      else
        match s' with
        | "" => [String c ""]
        | String c' _ =>
            if isspace c' then String c "" :: split s'
            else
              match split s' with
              | t :: ts => String c t :: ts
              | [] => [String c ""]
              end
        end
  end.

(** [f.readlines()] / [for line in f] on a text: every line keeps its
    terminating newline; the last one may lack it. *)
Fixpoint readlines (s : string) : list string :=
  match s with
  | "" => []
  | String c s' =>
      if Ascii.eqb c nl_char then String c "" :: readlines s'
      else
        match readlines s' with
        | l :: ls => String c l :: ls
        | [] => [String c ""]
        end
  end.

Fixpoint rfind_from (s : string) (ch : ascii) (i last : Z) : Z :=
  match s with
  | "" => last
  | String c s' => rfind_from s' ch (i + 1) (if Ascii.eqb c ch then i else last)
  end.

(** [s.rfind(ch)]: the last index of [ch], or [-1]. *)
Definition rfind (s : string) (ch : ascii) : Z := rfind_from s ch 0 (-1).

Fixpoint take (n : nat) (s : string) : string :=
  match n, s with
  | S n', String c s' => String c (take n' s')
  | _, _ => ""
  end.

Fixpoint drop (n : nat) (s : string) : string :=
  match n, s with
  | S n', String _ s' => drop n' s'
  | _, _ => s
  end.

(** The slices [s[:i]], [s[i:]] and [s[i:j]] for indices [0 <= i <= j],
    the only ones the script's callees form. *)
Definition upto (i : Z) (s : string) : string := take (Z.to_nat i) s.
Definition from (i : Z) (s : string) : string := drop (Z.to_nat i) s.
Definition slice (i j : Z) (s : string) : string := upto (j - i) (from i s).

(** [ch * n] *)
Fixpoint repeat_char (ch : ascii) (n : nat) : string :=
  match n with
  | O => ""
  | S n' => String ch (repeat_char ch n')
  end.

(** [re.match("^(.*?)\#", line)]: [Some g] with [g] the group when it
    matches.  A dot does not match a newline, so the match exists exactly
    when a [#] occurs with no newline before it, and the lazy group is the
    text before the first [#]. *)
Fixpoint match_comment (line : string) : option string :=
  match line with
  | "" => None
  | String c s =>
      if Ascii.eqb c "#" then Some ""
      else if Ascii.eqb c nl_char then None
      else option_map (String c) (match_comment s)
  end.

(** [re.match("^\s*\#", line)] as a truth value. *)
Fixpoint match_leading_hash (line : string) : bool :=
  match line with
  | "" => false
  | String c s =>
      if Ascii.eqb c "#" then true
      else if isspace c then match_leading_hash s
      else false
  end.

End PyStr.

(** ** [posixpath] *)

Module PosixPath.
Import PyStr.

(** [os.path.dirname] *)
Definition dirname (p : string) : string :=
  let i := (rfind p "/" + 1)%Z in
  let head := upto i p in
  if negb (String.eqb head "")
     && negb (String.eqb head (repeat_char "/" (String.length head)))
  then rstrip_char "/" head
  else head.

(** [os.path.basename] *)
Definition basename (p : string) : string :=
  let i := (rfind p "/" + 1)%Z in
  from i p.

(** The [while filenameIndex < dotIndex] loop of [genericpath._splitext];
    [n] counts the iterations left, [dotIndex - filenameIndex]. *)
Fixpoint splitext_loop (p : string) (dotIndex : Z) (n : nat)
  (filenameIndex : Z) : string * string :=
  match n with
  | O => (p, "")
  | S n' =>
      if negb (String.eqb (slice filenameIndex (filenameIndex + 1) p) ".")
      then (upto dotIndex p, from dotIndex p)
      else splitext_loop p dotIndex n' (filenameIndex + 1)
  end.

(** [os.path.splitext] *)
Definition splitext (p : string) : string * string :=
  let sepIndex := rfind p "/" in
  let dotIndex := rfind p "." in
  if (sepIndex <? dotIndex)%Z then
    let filenameIndex := (sepIndex + 1)%Z in
    splitext_loop p dotIndex (Z.to_nat (dotIndex - filenameIndex)) filenameIndex
  else (p, "").

End PosixPath.

(** ** Values *)

(** A numpy array of shape (rows, cols), as its list of rows. *)
Definition matrix : Type := list (list float).

(** [np.ones((r, c))] *)
Definition np_ones (r c : nat) : matrix := replicate r (replicate c 1%float).

(** [l[i]] *)
Definition getitem {A} (l : list A) (i : nat) : result A :=
  match l !! i with
  | Some x => Ok x
  | None => Raise IndexError
  end.

(** [M[row][col]] *)
Definition getitem2 (M : matrix) (row col : nat) : result float :=
  (r <- getitem M row ;; getitem r col)%py.

(** [M[row][col] = v] *)
Definition setitem2 (M : matrix) (row col : nat) (v : float) : result matrix :=
  (r <- getitem M row ;;
   if (col <? length r)%nat
   then Ok (<[row := <[col := v]> r]> M)
   else Raise IndexError)%py.

(** [a / b] on Python floats: division by a zero of either sign raises. *)
Definition truediv (a b : float) : result float :=
  if PrimFloat.eqb b 0 then Raise ZeroDivisionError else Ok (a / b)%float.

(** The six numbers [(nf, d0, d1, paspect, ncx, ncy)]. *)
Record intrinsics : Type := Intrinsics {
  nf : float; d0 : float; d1 : float; paspect : float; ncx : float; ncy : float
}.

(** The messages of the four [raise Exception(...)] statements. *)
Definition could_not_parse (image_list : string) : exn :=
  Exception ("Could not parse: " +:+ image_list).
Definition missing_file (undist_intrinsics : string) : exn :=
  Exception ("Missing file: " +:+ undist_intrinsics).
Definition could_not_parse_intrinsics (undist_intrinsics : string) : exn :=
  Exception ("Could not parse the undistorted intrinsics from: "
             +:+ undist_intrinsics).
Definition count_mismatch : exn :=
  Exception "Expecting as many images as cameras.".

(** The error kinds of the specification, read off the exception that
    reaches the caller.  A [ParseError] is either of the two "Could not
    parse" exceptions or the [ValueError] of [float] on a token. *)
Definition is_ParseError (e : exn) : bool :=
  match e with
  | Exception msg => String.prefix "Could not parse" msg
  | ValueError _ => true
  | _ => false
  end.
Definition is_MissingFileError (e : exn) : bool :=
  match e with
  | Exception msg => String.prefix "Missing file: " msg
  | _ => false
  end.
Definition is_CountMismatchError (e : exn) : bool :=
  match e with
  | Exception msg => String.eqb msg "Expecting as many images as cameras."
  | _ => false
  end.

(** ** Executable versions of the two builtins

    [PyRef.to_float] follows the grammar of [float(str)] (sign, [inf],
    [infinity], [nan] in any case, decimal digits with single underscores
    between them, a fraction, an exponent) and rounds the decimal value to
    the nearest binary64, ties to even.  [PyRef.fmt17g] prints the seventeen
    significant digits of the exact binary value, rounded the same way, in
    the [%g] style: fixed notation when the decimal exponent is in
    [-4 .. 16], scientific otherwise, trailing zeros removed. *)

Module PyRef.

Definition is_digit (c : ascii) : bool :=
  let n := nat_of_ascii c in ((48 <=? n) && (n <=? 57))%nat.

Definition digit_val (c : ascii) : Z := Z.of_nat (nat_of_ascii c) - 48.

(** ASCII lower case of a letter. *)
Definition lower (c : ascii) : ascii :=
  let n := nat_of_ascii c in
  if ((65 <=? n) && (n <=? 90))%nat then ascii_of_nat (n + 32) else c.

Fixpoint lower_str (s : string) : string :=
  match s with
  | "" => ""
  | String c s' => String (lower c) (lower_str s')
  end.

(** [digit (["_"] digit)*] read off the front of [s]: the value of the
    digits after [acc], how many there are after [n], and the rest. *)
Fixpoint read_digits (s : string) (acc : Z) (n : Z) : Z * Z * string :=
  match s with
  | String c s' =>
      if is_digit c then
        let acc' := (acc * 10 + digit_val c)%Z in
        match s' with
        | String "_" (String c2 _ as s'') =>
            if is_digit c2 then read_digits s'' acc' (n + 1)
            else (acc', (n + 1)%Z, s')
        | _ => read_digits s' acc' (n + 1)
        end
      else (acc, n, s)
  | "" => (acc, n, s)
  end.

(** The exponent part, [0] when there is none; [None] when malformed or
    when text is left over. *)
Definition read_exponent (s : string) : option Z :=
  match s with
  | "" => Some 0%Z
  | String c s' =>
      if Ascii.eqb (lower c) "e" then
        let '(neg, s'') :=
          match s' with
          | String "+" t => (false, t)
          | String "-" t => (true, t)
          | _ => (false, s')
          end in
        match read_digits s'' 0 0 with
        | (v, n, "") =>
            if (0 <? n)%Z then Some (if neg then (- v)%Z else v) else None
        | _ => None
        end
      else None
  end.

(** The nearest binary64 to [(-1)^neg * n / d], for [n >= 0] and [d > 0]:
    the quotient is taken with more than 64 bits and its inexactness is kept
    in a low sticky bit before rounding. *)
Definition round_ratio (neg : bool) (n d : Z) : float :=
  if (n =? 0)%Z then (if neg then (-0)%float else 0%float)
  else
    let k := Z.max 0 (66 + Z.log2 d - Z.log2 n) in
    let q := (n * 2 ^ k / d)%Z in
    let r := (n * 2 ^ k mod d)%Z in
    let q' := (2 * q + (if (r =? 0)%Z then 0 else 1))%Z in
    SF2Prim (binary_normalize prec emax (if neg then - q' else q') (- k - 1) neg).

(** The value [(-1)^neg * m * 10^e]. *)
Definition decimal_value (neg : bool) (m e : Z) : float :=
  if (0 <=? e)%Z then round_ratio neg (m * 10 ^ e) 1
  else round_ratio neg m (10 ^ (- e)).

Definition to_float (tok : string) : option float :=
  let '(neg, body) :=
    match tok with
    | String "+" t => (false, t)
    | String "-" t => (true, t)
    | _ => (false, tok)
    end in
  let low := lower_str body in
  if String.eqb low "inf" || String.eqb low "infinity"
  then Some (if neg then neg_infinity else infinity)
  else if String.eqb low "nan" then Some nan
  else
    let '(ip, ni, rest) := read_digits body 0 0 in
    let '(m, nfrac, had_dot, rest') :=
      match rest with
      | String "." t =>
          let '(m, nfrac, rest') := read_digits t ip 0 in (m, nfrac, true, rest')
      | _ => (ip, 0%Z, false, rest)
      end in
    if (ni + nfrac =? 0)%Z then None
    else
      match read_exponent rest' with
      | Some ex => Some (decimal_value neg m (ex - nfrac))
      | None => None
      end.

(** The number of decimal digits of [n > 0]. *)
Fixpoint count_digits (fuel : nat) (n : Z) : Z :=
  match fuel with
  | O => 0
  | S fuel' => if (n <? 10)%Z then 1 else (1 + count_digits fuel' (n / 10))%Z
  end.

Definition ndigits (n : Z) : Z := count_digits (S (Z.to_nat (Z.log2 n))) n.

(** The [k] low decimal digits of [n], most significant first. *)
Fixpoint digits (k : nat) (n : Z) (tail : string) : string :=
  match k with
  | O => tail
  | S k' =>
      digits k' (n / 10)
        (String (ascii_of_nat (48 + Z.to_nat (n mod 10))) tail)
  end.

(** A natural number in decimal, with at least [k] digits. *)
Definition decimal (k : nat) (n : Z) : string :=
  digits (Nat.max k (Z.to_nat (ndigits (Z.max n 1)))) n "".

(** [n / d] rounded to the nearest integer, ties to even. *)
Definition div_half_even (n d : Z) : Z :=
  let q := (n / d)%Z in
  let r := (n mod d)%Z in
  if (d <? 2 * r)%Z then (q + 1)%Z
  else if (2 * r =? d)%Z && Z.odd q then (q + 1)%Z
  else q.

Fixpoint strip_zeros (s : string) : string :=
  match s with
  | "" => ""
  | String c s' =>
      match strip_zeros s' with
      | "" => if Ascii.eqb c "0" then "" else String c ""
      | r => String c r
      end
  end.

(** The seventeen significant digits of [n / d > 0] and the decimal
    exponent [x] of the first one: [n / d] is about [D * 10^(x - 16)]. *)
Definition sig17 (n d : Z) : Z * Z :=
  let x0 := (ndigits n - ndigits d)%Z in
  let ge := if (0 <=? x0)%Z then (d * 10 ^ x0 <=? n)%Z
            else (d <=? n * 10 ^ (- x0))%Z in
  let x := if ge then x0 else (x0 - 1)%Z in
  let sh := (x - 16)%Z in
  let D := if (0 <=? sh)%Z then div_half_even n (d * 10 ^ sh)
           else div_half_even (n * 10 ^ (- sh)) d in
  if (D =? 10 ^ 17)%Z then ((10 ^ 16)%Z, (x + 1)%Z) else (D, x).

Definition with_point (ip fp : string) : string :=
  match strip_zeros fp with
  | "" => ip
  | fp' => ip +:+ "." +:+ fp'
  end.

Definition fmt_finite (n d : Z) : string :=
  let '(D, x) := sig17 n d in
  let ds := digits 17 D "" in
  if (x <? -4)%Z || (17 <=? x)%Z then
    with_point (PyStr.take 1 ds) (PyStr.drop 1 ds)
    +:+ "e" +:+ (if (x <? 0)%Z then "-" else "+") +:+ decimal 2 (Z.abs x)
  else if (0 <=? x)%Z then
    with_point (PyStr.take (S (Z.to_nat x)) ds) (PyStr.drop (S (Z.to_nat x)) ds)
  else
    with_point "0" (PyStr.repeat_char "0" (Z.to_nat (- x - 1)) +:+ ds).

Definition fmt17g (x : float) : string :=
  match Prim2SF x with
  | S754_zero s => if s then "-0" else "0"
  | S754_infinity s => if s then "-inf" else "inf"
  | S754_nan => "nan"
  | S754_finite s m e =>
      (if s then "-" else "") +:+
      (if (0 <=? e)%Z then fmt_finite (Z.pos m * 2 ^ e) 1
       else fmt_finite (Z.pos m) (2 ^ (- e)))
  end.

End PyRef.

(** ** Example inputs *)

Module Ex.

Definition line (s : string) : string := s +:+ PyStr.nl.

(** Two images of [cam1] around one of [cam2], a comment and a blank line. *)
Definition manifest : string :=
  line "# image and world-to-camera pose"
  +:+ line "data/cam1/img0.jpg 1 0 0 0 1 0 0 0 1 0 0 0"
  +:+ line ""
  +:+ line "data/cam2/img0.jpg 1 0 0 0 1 0 0 0 1 5 5 5 # other sensor"
  +:+ line "data/cam1/img1.jpg 1 0 0 0 1 0 0 0 1 1 0 0".

(** A short line and a line with unparseable numbers, both of [cam2]. *)
Definition manifest_short_other : string :=
  line "data/cam1/img0.jpg 1 0 0 0 1 0 0 0 1 0 0 0"
  +:+ line "data/cam2/img0.jpg 1 2 3".
Definition manifest_junk_other : string :=
  line "data/cam1/img0.jpg 1 0 0 0 1 0 0 0 1 0 0 0"
  +:+ line "data/cam2/img0.jpg a b c d e f g h i j k l".

(** Intrinsics files: a record after a comment and before stray text; a
    three-token line before a record; a zero height; a focal length that is
    not a number. *)
Definition intr_1200 : string :=
  line "# width height focal cx cy"
  +:+ line "1200 1000 900 600 500"
  +:+ line "stray text".
Definition intr_100 : string := line "100 100 50 50 50".
Definition intr_short_first : string :=
  line "1 2 3" +:+ line "100 100 50 50 50".
Definition intr_zero_height : string := line "100 0 50 50 50".
Definition intr_nan : string := line "100 100 nan 50 50".

(** A file system in which every path names a file of its own and every
    file may be written, holding the files [m]; nothing printed yet. *)
Definition plain (m : gmap string string) : world :=
  World (fun p => p) (fun _ _ => true) m [].

Definition world_of (path text : string) : world := plain {[ path := text ]}.

Definition identity_pose (tx ty tz : float) : matrix :=
  [ [1; 0; 0; tx]; [0; 1; 0; ty]; [0; 0; 1; tz]; [0; 0; 0; 1] ]%float.

Definition half : intrinsics := Intrinsics 0.5 0 0 1 0.5 0.5.

Definition images2 : list string := ["out/u/img0.jpg"; "out/u/img1.jpg"].
Definition poses2 : list matrix := [identity_pose 0 0 0; identity_pose 1 0 0].
Definition images3 : list string := images2 ++ ["out/u/img2.jpg"].

Definition empty_world : world := plain ∅.

(** Name resolution that reads a run of slashes as one slash, and a file
    system that resolves names so; one in which no file may be written. *)
Fixpoint squeeze (p : string) : string :=
  match p with
  | "" => ""
  | String c rest =>
      match rest with
      | "" => String c ""
      | String c' _ =>
          if Ascii.eqb c "/" && Ascii.eqb c' "/" then squeeze rest
          else String c (squeeze rest)
      end
  end.

Definition squeezing (m : gmap string string) : world :=
  World squeeze (fun _ _ => true) m [].

Definition read_only (m : gmap string string) : world :=
  World (fun p => p) (fun _ _ => false) m [].

End Ex.

(** The namespace [process_args] returns. *)
Module Args.
Record t : Type := Make {
  rig_config : string;
  rig_sensor : string;
  image_list : string;
  mesh : string;
  out_dir : string;
  undistorted_crop_win : string
}.
End Args.

(** A run in which the system calls succeed: the directories are made,
    none is there beforehand, and both programs return 0 without touching
    the files. *)
Module ExRun.

Definition args : Args.t :=
  Args.Make "rig/config.txt" "cam1" "list.txt" "mesh.ply" "out" "1100 776".

Definition makedirs (path : string) (w : world) : bool * world := (true, w).
Definition isdir (path : string) (w : world) : bool := false.
Definition rmtree (path : string) : io unit := io_ret tt.
Definition popen (cmd : list string) : io Z := io_ret 0%Z.

Definition start : world := Ex.plain {[ "list.txt" := Ex.manifest ]}.

Definition images : list string := ["data/cam1/img0.jpg"; "data/cam1/img1.jpg"].
Definition undist_dir : string := "out/cam1/undistorted_images".
Definition undistorted : list string :=
  ["out/cam1/undistorted_images/img0.jpg"; "out/cam1/undistorted_images/img1.jpg"].
Definition poses : list matrix :=
  [ [ [1; 0; 0; 0]; [0; 1; 0; 0]; [0; 0; 1; 0]; [1; 1; 1; 1] ];
    [ [1; 0; 0; 1]; [0; 1; 0; 0]; [0; 0; 1; 0]; [1; 1; 1; 1] ] ]%float.

End ExRun.

(** ** The script *)

Section Texrecon.

(** [float(tok)]: [None] stands for the [ValueError] it raises. *)
Variable to_float : string -> option float.
(** ["%0.17g" % x] *)
Variable fmt17g : float -> string.

Definition float_of (tok : string) : result float :=
  match to_float tok with
  | Some v => Ok v
  | None => Raise (ValueError tok)
  end.

(** *** parse_images_and_camera_poses *)

(** One assignment [M[row][col] = float(vals[count]); count = count + 1]. *)
Definition read_entry (vals : list string) (row col : nat)
  (st : matrix * nat) : result (matrix * nat) :=
  let '(M, count) := st in
  (tok <- getitem vals count ;;
   v <- float_of tok ;;
   M' <- setitem2 M row col v ;;
   Ok (M', S count))%py.

(** Lines 150-160: the matrix built from the twelve tokens. *)
Definition read_pose (vals : list string) : result matrix :=
  (st <- for_each (seq 0 3)
          (fun row => for_each (seq 0 3) (fun col => read_entry vals row col))
          (np_ones 4 4, 0%nat) ;;
   st <- for_each (seq 0 3) (fun row => read_entry vals row 3) st ;;
   Ok (fst st))%py.

(** Lines 130-134: the line with its comment wiped and right-stripped. *)
Definition clean_line (line : string) : string :=
  let line :=
    match PyStr.match_comment line with
    | Some g => g
    | None => line
    end in
  PyStr.rstrip line.

(** [os.path.basename(os.path.dirname(image))] *)
Definition sensor_of (image : string) : string :=
  PosixPath.basename (PosixPath.dirname image).

(** The body of [for line in lines], on the pair of lists built so far. *)
Definition parse_line (image_list rig_sensor : string) (line : string)
  (acc : list string * list matrix) : result (list string * list matrix) :=
  let '(images, world_to_cam) := acc in
  let line := clean_line line in
  if (String.length line =? 0)%nat then Ok acc
  else
    let vals := PyStr.split line in
    if (length vals <? 13)%nat then Raise (could_not_parse image_list)
    else
      (image <- getitem vals 0 ;;
       let vals := take 12 (drop 1 vals) in
       let curr_sensor := sensor_of image in
       if negb (String.eqb curr_sensor rig_sensor) then Ok acc
       else
         M <- read_pose vals ;;
         Ok ((images ++ [image])%list, (world_to_cam ++ [M])%list))%py.

Definition parse_lines (image_list rig_sensor : string) (lines : list string)
  : result (list string * list matrix) :=
  for_each lines (parse_line image_list rig_sensor) ([], []).

Definition parse_images_and_camera_poses (image_list rig_sensor : string)
  : io (list string * list matrix) :=
  (text <- open_r image_list ;;
   io_lift (parse_lines image_list rig_sensor (PyStr.readlines text)))%io.

(** *** convert_intrinsics_to_texrecon *)

(** Lines 231-247: the five tokens turned into the six numbers. *)
Definition normalize (vals : list string) : result intrinsics :=
  (t0 <- getitem vals 0 ;; widx <- float_of t0 ;;
   t1 <- getitem vals 1 ;; widy <- float_of t1 ;;
   t2 <- getitem vals 2 ;; f <- float_of t2 ;;
   t3 <- getitem vals 3 ;; cx <- float_of t3 ;;
   t4 <- getitem vals 4 ;; cy <- float_of t4 ;;
   let max_wid := widx in
   let max_wid := if PrimFloat.ltb max_wid widy then widy else max_wid in
   nf <- truediv f max_wid ;;
   ncx <- truediv cx widx ;;
   ncy <- truediv cy widy ;;
   Ok (Intrinsics nf 0 0 1 ncx ncy))%py.

(** The [for line in f] loop.  It ends with [None] when the lines run out
    and with [Some] at the [break]. *)
Fixpoint scan_intrinsics (undist_intrinsics : string) (lines : list string)
  : io (option intrinsics) :=
  match lines with
  | [] => io_ret None
  | line :: rest =>
      if PyStr.match_leading_hash line
      then scan_intrinsics undist_intrinsics rest
      else
        let vals := PyStr.split line in
        if (length vals <? 5)%nat
        then (print ("Expecting 5 parameters in " +:+ undist_intrinsics) ;;;
              io_raise (SystemExit 1))%io
        else (r <- io_lift (normalize vals) ;; io_ret (Some r))%io
  end.

Definition convert_intrinsics_to_texrecon (undist_intrinsics : string)
  : io intrinsics :=
  (ex <- path_exists undist_intrinsics ;;
   if negb ex then io_raise (missing_file undist_intrinsics)
   else
     text <- open_r undist_intrinsics ;;
     found <- scan_intrinsics undist_intrinsics (PyStr.readlines text) ;;
     let nf_ := match found with Some r => nf r | None => (-1)%float end in
     if PrimFloat.leb nf_ 0
     then io_raise (could_not_parse_intrinsics undist_intrinsics)
     else
       match found with
       | Some r => io_ret r
       | None => io_raise (UnboundLocalError "d0")
       end)%io.

(** *** create_texrecon_cameras *)

(** ["%0.17g ... %0.17g" % (x1, ..., xn)]: the numbers, one space apart. *)
Definition fmt_fields (xs : list float) : string :=
  String.concat " " (map fmt17g xs).

(** The path of the camera file of an image. *)
Definition cam_path (image : string) : string :=
  fst (PosixPath.splitext image) +:+ ".cam".

(** The arguments of the first two [g.write] calls. *)
Definition translation_text (M : matrix) : result string :=
  (a <- getitem2 M 0 3 ;; b <- getitem2 M 1 3 ;; c <- getitem2 M 2 3 ;;
   Ok (fmt_fields [a; b; c] +:+ " "))%py.

Definition rotation_text (M : matrix) : result string :=
  (r00 <- getitem2 M 0 0 ;; r01 <- getitem2 M 0 1 ;; r02 <- getitem2 M 0 2 ;;
   r10 <- getitem2 M 1 0 ;; r11 <- getitem2 M 1 1 ;; r12 <- getitem2 M 1 2 ;;
   r20 <- getitem2 M 2 0 ;; r21 <- getitem2 M 2 1 ;; r22 <- getitem2 M 2 2 ;;
   Ok (fmt_fields [r00; r01; r02; r10; r11; r12; r20; r21; r22] +:+ PyStr.nl))%py.

Definition intrinsics_text (k : intrinsics) : string :=
  fmt_fields [nf k; d0 k; d1 k; paspect k; ncx k; ncy k] +:+ PyStr.nl.

(** The body of [for it in range(len(undistorted_images))]. *)
Definition write_camera (undistorted_images : list string)
  (world_to_cam : list matrix) (k : intrinsics) (it : nat) : io unit :=
  (image <- io_lift (getitem undistorted_images it) ;;
   let cam := cam_path image in
   print ("Writing: " +:+ cam) ;;;
   open_w cam ;;;
   M <- io_lift (getitem world_to_cam it) ;;
   t <- io_lift (translation_text M) ;;
   write cam t ;;;
   r <- io_lift (rotation_text M) ;;
   write cam r ;;;
   write cam (intrinsics_text k))%io.

Definition create_texrecon_cameras (undistorted_images : list string)
  (world_to_cam : list matrix) (k : intrinsics) : io unit :=
  if negb (length undistorted_images =? length world_to_cam)%nat
  then io_raise count_mismatch
  else
    io_for_each (seq 0 (length undistorted_images))
      (write_camera undistorted_images world_to_cam k).

(** *** Notions used to state the properties *)

(** The token rows of a manifest: one per line that is not empty once its
    comment is wiped and it is right-stripped. *)
Definition data_rows (lines : list string) : list (list string) :=
  map PyStr.split
    (List.filter (fun l => negb (String.length l =? 0)%nat) (map clean_line lines)).

Definition row_image (row : list string) : string := hd "" row.
Definition row_numeric (row : list string) : list string := take 12 (drop 1 row).
Definition row_short (row : list string) : bool := (length row <? 13)%nat.
Definition row_matches (rig_sensor : string) (row : list string) : bool :=
  String.eqb (sensor_of (row_image row)) rig_sensor.

(** [float] applied to the tokens in order: all the values, or [None] when
    one of them is not a number. *)
Fixpoint floats_of (toks : list string) : option (list float) :=
  match toks with
  | [] => Some []
  | t :: ts =>
      match to_float t with
      | Some v =>
          match floats_of ts with
          | Some vs => Some (v :: vs)
          | None => None
          end
      | None => None
      end
  end.

(** The matrix the parser leaves for twelve numbers read in order. *)
Definition pose_layout (v : list float) : matrix :=
  let x i := nth i v 0%float in
  [ [x 0; x 1; x 2; x 9];
    [x 3; x 4; x 5; x 10];
    [x 6; x 7; x 8; x 11];
    [1; 1; 1; 1]%float ]%nat.

(** [M] is the pose of a row that carries twelve numbers. *)
Definition row_pose (M : matrix) (row : list string) : Prop :=
  exists v, floats_of (row_numeric row) = Some v /\ M = pose_layout v.

(** What the loop body does with the tokens [row] of a non-empty line. *)
Definition parse_row (image_list rig_sensor : string) (row : list string)
  (acc : list string * list matrix) : result (list string * list matrix) :=
  if row_short row then Raise (could_not_parse image_list)
  else if negb (row_matches rig_sensor row) then Ok acc
  else
    bind (read_pose (row_numeric row))
      (fun M => Ok ((fst acc ++ [row_image row])%list, (snd acc ++ [M])%list)).

(** A row the loop passes: thirteen tokens or more and, when it is of the
    target sensor, twelve numbers after the image. *)
Definition row_numbers_ok (row : list string) : bool :=
  match floats_of (row_numeric row) with
  | Some _ => true
  | None => false
  end.

Definition row_ok (rig_sensor : string) (row : list string) : bool :=
  negb (row_short row)
  && (negb (row_matches rig_sensor row) || row_numbers_ok row).

(** [max(a, b)] of Python: the second argument only when it is greater. *)
Definition py_max (a b : float) : float := if PrimFloat.ltb a b then b else a.

(** The first line of an intrinsics file that is not a comment. *)
Definition first_data_line (lines : list string) : option string :=
  List.find (fun l => negb (PyStr.match_leading_hash l)) lines.

(** The five numbers of a data line. *)
Definition line_values (line : string) (widx widy f cx cy : float) : Prop :=
  exists t0 t1 t2 t3 t4 rest,
    PyStr.split line = t0 :: t1 :: t2 :: t3 :: t4 :: rest
    /\ to_float t0 = Some widx /\ to_float t1 = Some widy
    /\ to_float t2 = Some f /\ to_float t3 = Some cx /\ to_float t4 = Some cy.

(** The world after the message printed before [sys.exit(1)]. *)
Definition exit_world (undist_intrinsics : string) (w : world) : world :=
  World (realpath w) (writable w) (files w)
    (stdout w ++ ["Expecting 5 parameters in " +:+ undist_intrinsics]).

(** What the run makes of the first line that is not a comment. *)
Definition on_data_line (undist_intrinsics line : string) (w : world)
  : result intrinsics * world :=
  if (length (PyStr.split line) <? 5)%nat
  then (Raise (SystemExit 1), exit_world undist_intrinsics w)
  else
    match normalize (PyStr.split line) with
    | Raise e => (Raise e, w)
    | Ok k =>
        if PrimFloat.leb (nf k) 0
        then (Raise (could_not_parse_intrinsics undist_intrinsics), w)
        else (Ok k, w)
    end.

(** The two lines of a camera file for the pose [M]: translation column then
    rotation rows on the first, the six intrinsics on the second. *)
Definition extrinsics_line (M : matrix) : string :=
  let x r c := nth c (nth r M []) 0%float in
  fmt_fields
    [x 0 3; x 1 3; x 2 3;
     x 0 0; x 0 1; x 0 2; x 1 0; x 1 1; x 1 2; x 2 0; x 2 1; x 2 2]%nat.

Definition intrinsics_line (k : intrinsics) : string :=
  fmt_fields [nf k; d0 k; d1 k; paspect k; ncx k; ncy k].

Fixpoint has_nl (s : string) : bool :=
  match s with
  | "" => false
  | String c s' => Ascii.eqb c PyStr.nl_char || has_nl s'
  end.

(** Everything the three [g.write] calls put in the file of pose [M]. *)
Definition camera_text (M : matrix) (k : intrinsics) : result string :=
  (t <- translation_text M ;;
   r <- rotation_text M ;;
   Ok (t +:+ r +:+ intrinsics_text k))%py.

(** The file and text that iteration [it] of the loop leaves, when it
    completes, under the name resolution [rp]. *)
Definition camera_file (rp : string -> string) (images : list string)
  (poses : list matrix) (k : intrinsics) (it : nat) : option (string * string) :=
  match images !! it, poses !! it with
  | Some image, Some M =>
      match camera_text M k with
      | Ok s => Some (rp (cam_path image), s)
      | Raise _ => None
      end
  | _, _ => None
  end.

Definition put_file (m : gmap string string) (f : option (string * string))
  : gmap string string :=
  match f with
  | Some (p, s) => <[p := s]> m
  | None => m
  end.

(** The files after the iterations [its], started on the files [m]. *)
Definition written (rp : string -> string) (images : list string)
  (poses : list matrix) (k : intrinsics) (its : list nat)
  (m : gmap string string) : gmap string string :=
  foldl (fun m it => put_file m (camera_file rp images poses k it)) m its.

(** Whether iteration [it] writes the file [p]. *)
Definition targets (rp : string -> string) (images : list string)
  (poses : list matrix) (k : intrinsics) (p : string) (it : nat) : bool :=
  match camera_file rp images poses k it with
  | Some (p', _) => String.eqb p' p
  | None => false
  end.

(** *** The rest of the script

    The command line, the directories and the two external programs.  What
    the operating system does is a parameter: [os.makedirs] (whether it
    made the directory or raised the [OSError] that [mkdir_p] catches),
    [os.path.isdir], [shutil.rmtree], and [subprocess.Popen] followed by
    [wait] (the return code of the process, after whatever it did to the
    files). *)

Variable os_makedirs : string -> world -> bool * world.
Variable os_path_isdir : string -> world -> bool.
Variable shutil_rmtree : string -> io unit.
Variable popen_wait : list string -> io Z.

Definition sanity_checks (args : Args.t) : result unit :=
  if String.eqb (Args.image_list args) "" then
    Raise (Exception
      "The path to the list having input images and poses was not specified.")
  else if String.eqb (Args.mesh args) "" then
    Raise (Exception "The mesh to use for texturing was not specified.")
  else if String.eqb (Args.rig_config args) "" then
    Raise (Exception "The path to the rig configuration was not specified.")
  else if String.eqb (Args.rig_sensor args) "" then
    Raise (Exception "The rig sensor to use for texturing was not specified.")
  else if String.eqb (Args.out_dir args) "" then
    Raise (Exception "The path to the output directory was not specified.")
  else if String.eqb (Args.undistorted_crop_win args) "" then
    Raise (Exception "The undistorted crop win was not specified.")
  else Ok tt.

Definition mkdir_p (path : string) : io unit :=
  if String.eqb path "" then io_ret tt
  else
    fun w =>
      match os_makedirs path w with
      | (true, w') => (Ok tt, w')
      | (false, w') =>
          if os_path_isdir path w' then (Ok tt, w')
          else
            (Raise (Exception ("Could not make directory " +:+ path
                               +:+ " as a file with this name exists.")), w')
      end.

Definition tab : string := String (ascii_of_nat 9) "".
Definition dquote : string := String (ascii_of_nat 34) "".

(** [ch in s] for a one-character [ch]. *)
Fixpoint contains_char (ch : ascii) (s : string) : bool :=
  match s with
  | "" => false
  | String c s' => Ascii.eqb c ch || contains_char ch s'
  end.

(** [x in l] on a list of strings. *)
Definition list_contains (x : string) (l : list string) : bool :=
  existsb (String.eqb x) l.

(** The body of the loop of [format_cmd]; the test for a tab looks into
    the list [cmd], not into [val]. *)
Definition format_arg (cmd : list string) (ans val : string) : string :=
  let val :=
    if contains_char " " val || list_contains tab cmd
    then dquote +:+ val +:+ dquote
    else val in
  ans +:+ (val +:+ " ").

Definition format_cmd (cmd : list string) : string :=
  foldl (format_arg cmd) "" cmd.

Definition run_cmd (cmd : list string) (log_file : string) : io unit :=
  (let cmd_str := format_cmd cmd in
   print (cmd_str +:+ PyStr.nl) ;;;
   open_w log_file ;;;
   write log_file (cmd_str +:+ PyStr.nl) ;;;
   returncode <- popen_wait cmd ;;
   if negb (returncode =? 0)%Z
   then (print ("Failed execution of: " +:+ String.concat " " cmd) ;;;
         io_raise (SystemExit 1))
   else io_ret tt)%io.

(** [os.path.join(a, b)] *)
Definition path_join (a b : string) : string :=
  if String.prefix "/" b then b
  else if String.eqb a "" || String.eqb (PyStr.from (Z.of_nat (String.length a) - 1) a) "/"
  then a +:+ b
  else a +:+ "/" +:+ b.

(** [for x in xs: s = body(x, s)] in [io]. *)
Fixpoint io_fold {A S} (xs : list A) (body : A -> S -> io S) (s : S) : io S :=
  match xs with
  | [] => io_ret s
  | x :: xs' => io_bind (body x s) (io_fold xs' body)
  end.

(** Lines 193-197: the path of the undistorted copy of [image]. *)
Definition undistorted_image (undist_dir image : string) : string :=
  let image := undist_dir +:+ "/" +:+ PosixPath.basename image in
  fst (PosixPath.splitext image) +:+ ".jpg".

Definition undistort_images (args : Args.t) (images : list string)
  (base_dir : string) : io (string * list string * string) :=
  (let dist_image_list :=
     Args.out_dir args +:+ "/" +:+ Args.rig_sensor args
     +:+ "/distorted_index.txt" in
   mkdir_p (PosixPath.dirname dist_image_list) ;;;
   print ("Writing: " +:+ dist_image_list) ;;;
   open_w dist_image_list ;;;
   dist_images <-
     io_fold images
       (fun image dist_images =>
          let dist_images := (dist_images ++ [image])%list in
          write dist_image_list (image +:+ PyStr.nl) ;;;
          io_ret dist_images) [] ;;
   let undist_dir :=
     Args.out_dir args +:+ "/" +:+ Args.rig_sensor args
     +:+ "/undistorted_images" in
   (fun w =>
      if os_path_isdir undist_dir w
      then (print ("Removing recursively old directory: " +:+ undist_dir) ;;;
            shutil_rmtree undist_dir) w
      else (Ok tt, w)) ;;;
   let undist_image_list :=
     Args.out_dir args +:+ "/" +:+ Args.rig_sensor args
     +:+ "/undistorted_index.txt" in
   mkdir_p undist_dir ;;;
   print ("Writing: " +:+ undist_image_list) ;;;
   open_w undist_image_list ;;;
   undistorted_images <-
     io_fold dist_images
       (fun image undistorted_images =>
          let image := undistorted_image undist_dir image in
          let undistorted_images := (undistorted_images ++ [image])%list in
          write undist_image_list (image +:+ PyStr.nl) ;;;
          io_ret undistorted_images) [] ;;
   let undist_intrinsics := undist_dir +:+ "/undistorted_intrinsics.txt" in
   let cmd :=
     [base_dir +:+ "/bin/undistort_image_texrecon";
      "--save_bgr";
      "--image_list"; dist_image_list;
      "--output_list"; undist_image_list;
      "--rig_config"; Args.rig_config args;
      "--rig_sensor"; Args.rig_sensor args;
      "--undistorted_crop_win"; Args.undistorted_crop_win args;
      "--undistorted_intrinsics"; undist_intrinsics] in
   let log_file :=
     path_join (Args.out_dir args)
       ("undist_" +:+ Args.rig_sensor args +:+ "_log.txt") in
   print ("Undistorting " +:+ Args.rig_sensor args
          +:+ " images. Writing the output log to: " +:+ log_file) ;;;
   run_cmd cmd log_file ;;;
   io_ret (undist_intrinsics, undistorted_images, undist_dir))%io.

Definition run_texrecon (base_dir undist_dir mesh texture_dir : string)
  : io string :=
  (let texrecon_path := base_dir +:+ "/bin/texrecon" in
   ex <- path_exists texrecon_path ;;
   if negb ex then io_raise (Exception ("Cannot find: " +:+ texrecon_path))
   else
     mkdir_p texture_dir ;;;
     let cmd :=
       [texrecon_path; undist_dir; mesh; texture_dir;
        "-o"; "gauss_clamping";
        "-d"; "view_dir_dot_face_dir";
        "--keep_unseen_faces"] in
     let log_file := path_join texture_dir "texrecon_log.txt" in
     print ("Running texrecon. Writing the output log to: " +:+ log_file
            +:+ "." +:+ PyStr.nl) ;;;
     run_cmd cmd log_file ;;;
     let textured_mesh := texture_dir +:+ ".obj" in
     print ("Wrote: " +:+ textured_mesh) ;;;
     io_ret textured_mesh)%io.

(** The block under [if __name__ == "__main__"], with [args] the result of
    [process_args] and [script] that of [os.path.abspath(sys.argv[0])]. *)
Definition main (args : Args.t) (script : string) : io unit :=
  (io_lift (sanity_checks args) ;;;
   mkdir_p (Args.out_dir args) ;;;
   parsed <- parse_images_and_camera_poses (Args.image_list args)
               (Args.rig_sensor args) ;;
   let base_dir := PosixPath.dirname (PosixPath.dirname script) in
   undistorted <- undistort_images args (fst parsed) base_dir ;;
   let undist_intrinsics := fst (fst undistorted) in
   let undistorted_images := snd (fst undistorted) in
   let undist_dir := snd undistorted in
   k <- convert_intrinsics_to_texrecon undist_intrinsics ;;
   create_texrecon_cameras undistorted_images (snd parsed) k ;;;
   let texture_dir :=
     Args.out_dir args +:+ "/" +:+ Args.rig_sensor args +:+ "/texture" in
   run_texrecon base_dir undist_dir (Args.mesh args) texture_dir ;;;
   io_ret tt)%io.

(** Whether a file name consists of dots only (the empty name included):
    the names in which [splitext] finds no extension. *)
Fixpoint all_dots (s : string) : bool :=
  match s with
  | "" => true
  | String c s' => Ascii.eqb c "." && all_dots s'
  end.

(** A directory prefix: nothing, or text ended by a slash. *)
Definition dir_prefix (pre : string) : Prop :=
  pre = "" \/ exists d, pre = d +:+ "/".

(** [ext] is the extension of the path [image] and [root] the path without
    it.  The extension starts at the last dot of the file name, provided a
    character other than a dot comes before that dot in the name; a name
    made of dots followed by text without a dot has the empty extension. *)
Definition splits_extension (image root ext : string) : Prop :=
  exists dir name,
    image = dir +:+ name /\ dir_prefix dir /\ contains_char "/" name = false
    /\ ((exists stem y,
           name = stem +:+ "." +:+ y /\ contains_char "." y = false
           /\ all_dots stem = false
           /\ root = dir +:+ stem /\ ext = "." +:+ y)
        \/ (exists dots rest,
              name = dots +:+ rest /\ all_dots dots = true
              /\ contains_char "." rest = false
              /\ root = image /\ ext = "")).

(** Whether some character of the string is whitespace. *)
Fixpoint has_space (s : string) : bool :=
  match s with
  | "" => false
  | String c s' => PyStr.isspace c || has_space s'
  end.

(** What [format_cmd] emits for one argument: the argument, in double
    quotes when [quoted], and a space. *)
Definition format_one (quoted : bool) (val : string) : string :=
  (if quoted then dquote +:+ val +:+ dquote else val) +:+ " ".

(** Whether every character of the string is whitespace. *)
Fixpoint all_space (s : string) : bool :=
  match s with
  | "" => true
  | String c s' => PyStr.isspace c && all_space s'
  end.

(** A manifest line with nothing to parse: whitespace only, or whitespace
    without a newline followed by a [#]. *)
Fixpoint blank_or_comment (line : string) : bool :=
  match line with
  | "" => true
  | String c s =>
      if Ascii.eqb c "#" then true
      else if Ascii.eqb c PyStr.nl_char then all_space s
      else PyStr.isspace c && blank_or_comment s
  end.

(** *** Facts *)

Local Open Scope list_scope.

Lemma for_each_app {A S} (xs ys : list A) (body : A -> S -> result S) (s : S) :
  for_each (xs ++ ys) body s = bind (for_each xs body s) (for_each ys body).
Proof.
  revert s. induction xs as [|x xs IH]; intros s; simpl; [reflexivity|].
  destruct (body x s) as [s'|e]; simpl; [apply IH | reflexivity].
Qed.

Lemma could_not_parse_is_ParseError image_list :
  is_ParseError (could_not_parse image_list) = true.
Proof. reflexivity. Qed.

Lemma could_not_parse_intrinsics_is_ParseError p :
  is_ParseError (could_not_parse_intrinsics p) = true.
Proof. reflexivity. Qed.

Lemma missing_file_is_MissingFileError p :
  is_MissingFileError (missing_file p) = true.
Proof. destruct p; reflexivity. Qed.

(** The matrix of twelve tokens: all of them converted, or the
    [ValueError] of the first that is not a number. *)
Lemma read_pose_spec (vals : list string) :
  length vals = 12%nat ->
  match floats_of vals with
  | Some v => read_pose vals = Ok (pose_layout v)
  | None => exists tok, read_pose vals = Raise (ValueError tok)
  end.
Proof.
  intros Hlen.
  do 12 (destruct vals as [|? vals]; [discriminate Hlen|]).
  destruct vals; [clear Hlen | discriminate Hlen].
  unfold read_pose, read_entry, float_of. cbn.
  repeat match goal with
  | |- context [match to_float ?t with _ => _ end] =>
      destruct (to_float t); cbn; [| eexists; reflexivity]
  end.
  reflexivity.
Qed.

Lemma row_numeric_length row :
  row_short row = false -> length (row_numeric row) = 12%nat.
Proof.
  unfold row_short, row_numeric. intros H%Nat.ltb_ge.
  rewrite length_take, length_drop. lia.
Qed.

Lemma parse_line_row image_list rig_sensor line acc :
  parse_line image_list rig_sensor line acc =
  if (String.length (clean_line line) =? 0)%nat then Ok acc
  else parse_row image_list rig_sensor (PyStr.split (clean_line line)) acc.
Proof.
  unfold parse_line, parse_row. destruct acc as [images world_to_cam].
  destruct (String.length (clean_line line) =? 0)%nat; [reflexivity|].
  unfold row_short, row_matches, row_image, row_numeric.
  destruct (PyStr.split (clean_line line)) as [|image rest]; [reflexivity|].
  destruct (length (image :: rest) <? 13)%nat; reflexivity.
Qed.

Lemma data_rows_cons line lines :
  data_rows (line :: lines) =
  if (String.length (clean_line line) =? 0)%nat then data_rows lines
  else PyStr.split (clean_line line) :: data_rows lines.
Proof.
  unfold data_rows. simpl.
  destruct (String.length (clean_line line) =? 0)%nat; reflexivity.
Qed.

Lemma data_rows_app l1 l2 : data_rows (l1 ++ l2) = data_rows l1 ++ data_rows l2.
Proof.
  induction l1 as [|line l1 IH]; [reflexivity|].
  rewrite <- app_comm_cons, !data_rows_cons, IH.
  destruct (String.length (clean_line line) =? 0)%nat; reflexivity.
Qed.

Lemma for_each_lines_rows image_list rig_sensor lines acc :
  for_each lines (parse_line image_list rig_sensor) acc =
  for_each (data_rows lines) (parse_row image_list rig_sensor) acc.
Proof.
  revert acc. induction lines as [|line lines IH]; intros acc; [reflexivity|].
  rewrite data_rows_cons. simpl. rewrite parse_line_row.
  destruct (String.length (clean_line line) =? 0)%nat; simpl; [apply IH|].
  destruct (parse_row _ _ _ acc); simpl; [apply IH | reflexivity].
Qed.


Lemma parse_row_ok image_list rig_sensor row acc :
  row_ok rig_sensor row = true ->
  if row_matches rig_sensor row
  then exists M, row_pose M row /\
         parse_row image_list rig_sensor row acc =
         Ok ((fst acc ++ [row_image row])%list, (snd acc ++ [M])%list)
  else parse_row image_list rig_sensor row acc = Ok acc.
Proof.
  unfold row_ok, parse_row, row_numbers_ok.
  intros [Hs Hn]%andb_true_iff. apply negb_true_iff in Hs. rewrite Hs.
  pose proof (read_pose_spec (row_numeric row) (row_numeric_length row Hs)) as HP.
  destruct (row_matches rig_sensor row); cbn [negb orb] in *; [|reflexivity].
  destruct (floats_of (row_numeric row)) as [v|] eqn:Hv; [|discriminate].
  exists (pose_layout v). split; [exists v; auto|]. rewrite HP. reflexivity.
Qed.

Lemma parse_row_bad image_list rig_sensor row acc :
  row_ok rig_sensor row = false ->
  exists e, parse_row image_list rig_sensor row acc = Raise e
            /\ is_ParseError e = true.
Proof.
  unfold row_ok, parse_row, row_numbers_ok. intros H.
  destruct (row_short row) eqn:Hs; cbn [negb andb] in H.
  { eexists; split; [reflexivity | apply could_not_parse_is_ParseError]. }
  pose proof (read_pose_spec (row_numeric row) (row_numeric_length row Hs)) as HP.
  destruct (row_matches rig_sensor row); cbn [negb orb] in *; [|discriminate].
  destruct (floats_of (row_numeric row)) as [v|]; [discriminate|].
  destruct HP as [tok HP]. rewrite HP. eexists; split; reflexivity.
Qed.

Lemma parse_rows_ok image_list rig_sensor rows acc :
  forallb (row_ok rig_sensor) rows = true ->
  exists Ms,
    for_each rows (parse_row image_list rig_sensor) acc =
    Ok ((fst acc ++ map row_image (List.filter (row_matches rig_sensor) rows))%list,
        (snd acc ++ Ms)%list)
    /\ Forall2 row_pose Ms (List.filter (row_matches rig_sensor) rows).
Proof.
  revert acc. induction rows as [|row rows IH]; intros acc Hall.
  { exists []. simpl. rewrite !app_nil_r. destruct acc; split; [reflexivity|constructor]. }
  simpl in Hall. apply andb_true_iff in Hall as [Hrow Hall].
  pose proof (parse_row_ok image_list rig_sensor row acc Hrow) as Hstep.
  simpl. destruct (row_matches rig_sensor row).
  - destruct Hstep as (M & HM & ->). simpl.
    destruct (IH (fst acc ++ [row_image row], snd acc ++ [M])%list Hall)
      as (Ms & -> & HF).
    exists (M :: Ms). simpl. rewrite <- !app_assoc. simpl.
    split; [reflexivity | constructor; assumption].
  - rewrite Hstep. simpl. apply IH, Hall.
Qed.

Lemma parse_rows_bad image_list rig_sensor rows acc :
  forallb (row_ok rig_sensor) rows = false ->
  exists e, for_each rows (parse_row image_list rig_sensor) acc = Raise e
            /\ is_ParseError e = true.
Proof.
  revert acc. induction rows as [|row rows IH]; intros acc Hall; [discriminate|].
  simpl in Hall. simpl.
  destruct (row_ok rig_sensor row) eqn:Hrow; simpl in Hall.
  - pose proof (parse_row_ok image_list rig_sensor row acc Hrow) as Hstep.
    destruct (row_matches rig_sensor row).
    + destruct Hstep as (M & _ & ->). simpl. apply IH, Hall.
    + rewrite Hstep. simpl. apply IH, Hall.
  - destruct (parse_row_bad image_list rig_sensor row acc Hrow) as (e & -> & He).
    exists e. split; [reflexivity | assumption].
Qed.


Lemma parse_images_unfold image_list rig_sensor w :
  parse_images_and_camera_poses image_list rig_sensor w =
  match file_at w image_list with
  | Some text =>
      (for_each (data_rows (PyStr.readlines text))
         (parse_row image_list rig_sensor) ([], []), w)
  | None => (Raise (FileNotFoundError image_list), w)
  end.
Proof.
  unfold parse_images_and_camera_poses, io_bind, open_r, io_lift, parse_lines.
  destruct (file_at w image_list); [|reflexivity].
  rewrite for_each_lines_rows. reflexivity.
Qed.

Lemma parse_rows_inv image_list rig_sensor rows acc r :
  for_each rows (parse_row image_list rig_sensor) acc = Ok r ->
  forallb (row_ok rig_sensor) rows = true.
Proof.
  intros Hrun.
  destruct (forallb (row_ok rig_sensor) rows) eqn:Hall; [reflexivity|].
  destruct (parse_rows_bad image_list rig_sensor rows acc Hall) as (e & He & _).
  congruence.
Qed.

Lemma filter_matches_sensor rig_sensor rows :
  Forall (fun image => sensor_of image = rig_sensor)
    (map row_image (List.filter (row_matches rig_sensor) rows)).
Proof.
  induction rows as [|row rows IH]; simpl; [constructor|].
  destruct (row_matches rig_sensor row) eqn:Hm; [|assumption].
  simpl. constructor; [|assumption].
  unfold row_matches in Hm. apply String.eqb_eq in Hm. exact Hm.
Qed.

Lemma one_neq_zero : 1%float <> 0%float.
Proof.
  intros H. pose proof (f_equal (fun x => PrimFloat.eqb x 0) H) as E.
  vm_compute in E. discriminate E.
Qed.

(** What a successful run returns: the rows of the target sensor, in the
    order of the manifest, each with the matrix of its twelve numbers. *)
Lemma parse_images_ok_inv image_list rig_sensor w w' images world_to_cam :
  parse_images_and_camera_poses image_list rig_sensor w
  = (Ok (images, world_to_cam), w') ->
  exists text,
    file_at w image_list = Some text
    /\ w' = w
    /\ forallb (row_ok rig_sensor) (data_rows (PyStr.readlines text)) = true
    /\ images = map row_image
                  (List.filter (row_matches rig_sensor)
                     (data_rows (PyStr.readlines text)))
    /\ Forall2 row_pose world_to_cam
         (List.filter (row_matches rig_sensor) (data_rows (PyStr.readlines text))).
Proof.
  rewrite parse_images_unfold.
  destruct (file_at w image_list) as [text|]; [|discriminate].
  intros Hrun. injection Hrun as Hrun <-. exists text.
  split; [reflexivity|]. split; [reflexivity|].
  pose proof (parse_rows_inv _ _ _ _ _ Hrun) as Hall.
  destruct (parse_rows_ok image_list rig_sensor _ ([], []) Hall) as (Ms & Hok & HF).
  rewrite Hok in Hrun. simpl in Hrun. injection Hrun as <- <-.
  split; [exact Hall|]. split; [reflexivity | exact HF].
Qed.

Lemma row_pose_functional Ms Ms' rows :
  Forall2 row_pose Ms rows -> Forall2 row_pose Ms' rows -> Ms = Ms'.
Proof.
  intros H. revert Ms'.
  induction H as [|M row Ms rows (v & Hv & ->) _ IH]; intros Ms' H';
    inversion H' as [|M' ? Ms'' ? (v' & Hv' & ->) Hrest]; subst; [reflexivity|].
  rewrite Hv in Hv'. injection Hv' as <-. f_equal. apply IH, Hrest.
Qed.

(** C7.  The parser returns exactly when the manifest exists and every row
    passes the checks of the loop, and what it returns is then: for images,
    exactly the first tokens of the rows whose sensor, the name of the
    directory that holds the image, is string-equal to [rig_sensor], in the
    order of the manifest; for poses, the matrix of the twelve numbers of
    each such row, in the same order.  No other row contributes. *)
Theorem parse_keeps_exactly_target_sensor
  image_list rig_sensor w w' images world_to_cam :
  parse_images_and_camera_poses image_list rig_sensor w
  = (Ok (images, world_to_cam), w') <->
  exists text,
    file_at w image_list = Some text
    /\ forallb (row_ok rig_sensor) (data_rows (PyStr.readlines text)) = true
    /\ images = map row_image
                  (List.filter (row_matches rig_sensor)
                     (data_rows (PyStr.readlines text)))
    /\ Forall2 row_pose world_to_cam
         (List.filter (row_matches rig_sensor) (data_rows (PyStr.readlines text)))
    /\ Forall (fun image => sensor_of image = rig_sensor) images
    /\ w' = w.
Proof.
  split.
  - intros Hrun.
    destruct (parse_images_ok_inv _ _ _ _ _ _ Hrun)
      as (text & Hf & -> & Hall & -> & HF).
    exists text. repeat split; try assumption. apply filter_matches_sensor.
  - intros (text & Hf & Hall & -> & HF & _ & ->).
    rewrite parse_images_unfold, Hf.
    destruct (parse_rows_ok image_list rig_sensor _ ([], []) Hall)
      as (Ms & -> & HF').
    rewrite (row_pose_functional _ _ _ HF HF'). reflexivity.
Qed.

(** C8, on the code.  Every matrix the parser returns holds the nine
    rotation values row by row in its upper-left block and the three
    translation values in its fourth column, as [pose_layout] spells out,
    but its last row is the [1, 1, 1, 1] left by [np.ones((4,4))], not
    [0, 0, 0, 1]. *)
Theorem parsed_pose_last_row_is_ones
  image_list rig_sensor w w' images world_to_cam M :
  parse_images_and_camera_poses image_list rig_sensor w
  = (Ok (images, world_to_cam), w') ->
  M ∈ world_to_cam ->
  (exists v, M = pose_layout v)
  /\ M !! 3%nat = Some [1; 1; 1; 1]%float
  /\ M !! 3%nat <> Some [0; 0; 0; 1]%float.
Proof.
  intros Hrun HM.
  destruct (parse_images_ok_inv _ _ _ _ _ _ Hrun) as (text & _ & _ & _ & _ & HF).
  assert (Hv : exists v, M = pose_layout v).
  { clear Hrun. induction HF as [|M' row Ms rows (v & _ & ->) _ IH].
    - inversion HM.
    - apply elem_of_cons in HM as [-> | HM]; [exists v; reflexivity | auto]. }
  destruct Hv as (v & ->). split; [exists v; reflexivity|].
  split; [reflexivity|]. simpl. intros H.
  apply one_neq_zero.
  exact (f_equal (fun o => match o with Some (x :: _) => x | _ => 0%float end) H).
Qed.

(** C4, as amended.  On a manifest that exists the parser fails with a
    [ParseError] as soon as some line that is not empty once cleaned,
    whatever its sensor, has fewer than thirteen tokens, or some such line of
    the target sensor has a token among its twelve that is not a number;
    otherwise it returns, leaving the world as it was, one image and one pose
    per row of the target sensor. *)
Theorem parse_outcome image_list rig_sensor w text :
  file_at w image_list = Some text ->
  if forallb (row_ok rig_sensor) (data_rows (PyStr.readlines text))
  then
    exists images world_to_cam,
      parse_images_and_camera_poses image_list rig_sensor w
      = (Ok (images, world_to_cam), w)
      /\ length images
         = length (List.filter (row_matches rig_sensor)
                     (data_rows (PyStr.readlines text)))
      /\ length world_to_cam = length images
  else
    exists e,
      parse_images_and_camera_poses image_list rig_sensor w
      = (Raise e, w)
      /\ is_ParseError e = true.
Proof.
  intros Hf. rewrite parse_images_unfold, Hf.
  destruct (forallb _ _) eqn:Hall.
  - destruct (parse_rows_ok image_list rig_sensor _ ([], []) Hall) as (Ms & -> & HF).
    simpl. eexists _, _. split; [reflexivity|].
    rewrite length_map. split; [reflexivity|].
    eapply Forall2_length, HF.
  - destruct (parse_rows_bad image_list rig_sensor _ ([], []) Hall) as (e & -> & He).
    exists e. split; [reflexivity | exact He].
Qed.

(** C10.  A line of another sensor that is not empty once cleaned: when
    it has fewer than thirteen tokens the loop stops there with "Could not
    parse" (unless an earlier line already failed), the length test coming
    before the sensor test; when it has thirteen or more the line is skipped
    as if it were absent, whatever its numeric tokens are, since they are
    converted only after the sensor test. *)
Theorem short_check_precedes_sensor_filter image_list rig_sensor l1 line l2 :
  String.length (clean_line line) <> 0%nat ->
  row_matches rig_sensor (PyStr.split (clean_line line)) = false ->
  parse_lines image_list rig_sensor (l1 ++ line :: l2) =
  if row_short (PyStr.split (clean_line line))
  then bind (parse_lines image_list rig_sensor l1)
         (fun _ => Raise (could_not_parse image_list))
  else parse_lines image_list rig_sensor (l1 ++ l2).
Proof.
  intros Hne Hm. unfold parse_lines. rewrite !for_each_app.
  destruct (for_each l1 _ _) as [acc|e]; simpl;
    [| destruct (row_short _); reflexivity].
  rewrite parse_line_row. apply Nat.eqb_neq in Hne. rewrite Hne.
  unfold parse_row. rewrite Hm.
  destruct (row_short _); reflexivity.
Qed.

(** *** Intrinsics *)

Lemma convert_spec undist_intrinsics w :
  convert_intrinsics_to_texrecon undist_intrinsics w =
  match file_at w undist_intrinsics with
  | None => (Raise (missing_file undist_intrinsics), w)
  | Some text =>
      match first_data_line (PyStr.readlines text) with
      | None => (Raise (could_not_parse_intrinsics undist_intrinsics), w)
      | Some line => on_data_line undist_intrinsics line w
      end
  end.
Proof.
  unfold convert_intrinsics_to_texrecon, io_bind, path_exists, open_r.
  destruct (file_at w undist_intrinsics) as [text|] eqn:Hf; simpl;
    [|reflexivity].
  rewrite Hf.
  induction (PyStr.readlines text) as [|line lines IH]; [reflexivity|].
  unfold first_data_line. simpl.
  destruct (PyStr.match_leading_hash line); simpl; [exact IH|].
  unfold on_data_line, exit_world, io_bind, print, io_raise, io_lift, io_ret.
  destruct (length (PyStr.split line) <? 5)%nat; [reflexivity|].
  destruct (normalize (PyStr.split line)) as [k|e]; [|reflexivity].
  destruct (PrimFloat.leb (nf k) 0); reflexivity.
Qed.

Lemma py_max_nonzero a b :
  PrimFloat.eqb a 0 = false -> PrimFloat.eqb b 0 = false ->
  PrimFloat.eqb (py_max a b) 0 = false.
Proof. unfold py_max. destruct (PrimFloat.ltb a b); auto. Qed.

Lemma normalize_values line widx widy f cx cy :
  line_values line widx widy f cx cy ->
  normalize (PyStr.split line) =
  if PrimFloat.eqb (py_max widx widy) 0 then Raise ZeroDivisionError
  else if PrimFloat.eqb widx 0 then Raise ZeroDivisionError
  else if PrimFloat.eqb widy 0 then Raise ZeroDivisionError
  else Ok (Intrinsics (f / py_max widx widy) 0 0 1 (cx / widx) (cy / widy)).
Proof.
  intros (t0 & t1 & t2 & t3 & t4 & rest & -> & H0 & H1 & H2 & H3 & H4).
  unfold normalize, float_of, truediv, py_max. simpl.
  rewrite H0, H1, H2, H3, H4. simpl.
  destruct (PrimFloat.eqb (if PrimFloat.ltb widx widy then widy else widx) 0);
    [reflexivity|]. simpl.
  destruct (PrimFloat.eqb widx 0); [reflexivity|]. simpl.
  destruct (PrimFloat.eqb widy 0); reflexivity.
Qed.

Lemma normalize_ok_inv line k :
  normalize (PyStr.split line) = Ok k ->
  exists widx widy f cx cy,
    line_values line widx widy f cx cy
    /\ PrimFloat.eqb widx 0 = false
    /\ PrimFloat.eqb widy 0 = false
    /\ k = Intrinsics (f / py_max widx widy) 0 0 1 (cx / widx) (cy / widy).
Proof.
  unfold normalize, float_of, truediv, getitem. intros H.
  destruct (PyStr.split line) as [|t0 [|t1 [|t2 [|t3 [|t4 rest]]]]] eqn:Hs;
    simpl in H; try discriminate;
    destruct (to_float t0) as [widx|] eqn:H0; simpl in H; try discriminate;
    try (destruct (to_float t1) as [widy|] eqn:H1; simpl in H; try discriminate);
    try (destruct (to_float t2) as [f|] eqn:H2; simpl in H; try discriminate);
    try (destruct (to_float t3) as [cx|] eqn:H3; simpl in H; try discriminate).
  destruct (to_float t4) as [cy|] eqn:H4; simpl in H; try discriminate.
  fold (py_max widx widy) in H.
  destruct (PrimFloat.eqb (py_max widx widy) 0); simpl in H; try discriminate.
  destruct (PrimFloat.eqb widx 0) eqn:Hx; simpl in H; try discriminate.
  destruct (PrimFloat.eqb widy 0) eqn:Hy; simpl in H; try discriminate.
  injection H as <-.
  exists widx, widy, f, cx, cy.
  split; [|repeat split; assumption || reflexivity].
  exists t0, t1, t2, t3, t4, rest. rewrite Hs. auto 10.
Qed.

Lemma positive_not_leb_zero x :
  PrimFloat.ltb 0 x = true -> PrimFloat.leb x 0 = false.
Proof.
  rewrite ltb_spec, leb_spec. unfold SFltb, SFleb.
  change (Prim2SF 0) with (S754_zero false).
  destruct (Prim2SF x) as [s|s| |s m e]; simpl; try discriminate;
    destruct s; simpl; congruence.
Qed.

Lemma first_data_line_after_comments pre line rest :
  Forall (fun l => PyStr.match_leading_hash l = true) pre ->
  PyStr.match_leading_hash line = false ->
  first_data_line (pre ++ line :: rest) = Some line.
Proof.
  intros Hpre Hline. unfold first_data_line.
  induction Hpre as [|l pre Hl _ IH]; simpl.
  - rewrite Hline. reflexivity.
  - rewrite Hl. simpl. exact IH.
Qed.

(** C2.  The normaliser returns exactly when the first line of the file
    that is not a comment carries five numbers [widx widy f cx cy] with
    non-zero width and height and a normalised focal length that is not
    [<= 0]; what it returns is then [nf = f / max(widx, widy)],
    [ncx = cx / widx], [ncy = cy / widy], both distortion coefficients [0.0]
    and pixel aspect ratio [1.0], and the world is left as it was. *)
Theorem normalized_intrinsics_formula undist_intrinsics w w' k :
  convert_intrinsics_to_texrecon undist_intrinsics w = (Ok k, w') <->
  exists text line widx widy f cx cy,
    file_at w undist_intrinsics = Some text
    /\ first_data_line (PyStr.readlines text) = Some line
    /\ line_values line widx widy f cx cy
    /\ PrimFloat.eqb widx 0 = false
    /\ PrimFloat.eqb widy 0 = false
    /\ PrimFloat.leb (f / py_max widx widy) 0 = false
    /\ k = Intrinsics (f / py_max widx widy) 0 0 1 (cx / widx) (cy / widy)
    /\ w' = w.
Proof.
  rewrite convert_spec. split.
  - destruct (file_at w undist_intrinsics) as [text|] eqn:Hf; [|discriminate].
    destruct (first_data_line (PyStr.readlines text)) as [line|] eqn:Hl;
      [|discriminate].
    unfold on_data_line.
    destruct (length (PyStr.split line) <? 5)%nat; [discriminate|].
    destruct (normalize (PyStr.split line)) as [k'|e] eqn:Hn; [|discriminate].
    destruct (PrimFloat.leb (nf k') 0) eqn:Hnf; [discriminate|].
    intros H. injection H as -> <-.
    destruct (normalize_ok_inv line k Hn)
      as (widx & widy & f & cx & cy & Hv & Hx & Hy & ->).
    exists text, line, widx, widy, f, cx, cy.
    repeat split; assumption || reflexivity.
  - intros (text & line & widx & widy & f & cx & cy
            & -> & -> & Hv & Hx & Hy & Hnf & -> & ->).
    unfold on_data_line.
    assert (Hlen : (length (PyStr.split line) <? 5)%nat = false).
    { destruct Hv as (t0 & t1 & t2 & t3 & t4 & rest & -> & _). reflexivity. }
    rewrite Hlen, (normalize_values _ _ _ _ _ _ Hv).
    rewrite (py_max_nonzero _ _ Hx Hy), Hx, Hy. simpl. rewrite Hnf. reflexivity.
Qed.

(** C5, as amended.  The normaliser fails with a [MissingFileError] when
    the file is absent and with a [ParseError] when the file has no line
    that is not a comment.  When the first such line carries five numbers:
    with a zero width or a zero height it raises [ZeroDivisionError],
    whatever the focal length; with width and height both non-zero it fails
    with a [ParseError] if the normalised focal length is [<= 0] and returns
    the six normalised values, leaving the world as it was, if it is [> 0]. *)
Theorem convert_outcome undist_intrinsics w :
  (file_at w undist_intrinsics = None ->
   exists e, convert_intrinsics_to_texrecon undist_intrinsics w
             = (Raise e, w) /\ is_MissingFileError e = true)
  /\ (forall text,
        file_at w undist_intrinsics = Some text ->
        first_data_line (PyStr.readlines text) = None ->
        exists e, convert_intrinsics_to_texrecon undist_intrinsics w
                  = (Raise e, w) /\ is_ParseError e = true)
  /\ (forall text line widx widy f cx cy,
        file_at w undist_intrinsics = Some text ->
        first_data_line (PyStr.readlines text) = Some line ->
        line_values line widx widy f cx cy ->
        (PrimFloat.eqb widx 0 = true \/ PrimFloat.eqb widy 0 = true ->
         convert_intrinsics_to_texrecon undist_intrinsics w
         = (Raise ZeroDivisionError, w))
        /\ (PrimFloat.eqb widx 0 = false ->
            PrimFloat.eqb widy 0 = false ->
            PrimFloat.leb (f / py_max widx widy) 0 = true ->
            exists e, convert_intrinsics_to_texrecon undist_intrinsics w
                      = (Raise e, w) /\ is_ParseError e = true)
        /\ (PrimFloat.eqb widx 0 = false ->
            PrimFloat.eqb widy 0 = false ->
            PrimFloat.ltb 0 (f / py_max widx widy) = true ->
            convert_intrinsics_to_texrecon undist_intrinsics w
            = (Ok (Intrinsics (f / py_max widx widy) 0 0 1
                     (cx / widx) (cy / widy)), w))).
Proof.
  split; [|split].
  - intros Hf. rewrite convert_spec, Hf.
    eexists; split; [reflexivity | apply missing_file_is_MissingFileError].
  - intros text Hf Hnone. rewrite convert_spec, Hf, Hnone.
    eexists; split; [reflexivity | apply could_not_parse_intrinsics_is_ParseError].
  - intros text line widx widy f cx cy Hf Hline Hv.
    rewrite convert_spec, Hf, Hline. unfold on_data_line.
    assert (Hlen : (length (PyStr.split line) <? 5)%nat = false).
    { destruct Hv as (t0 & t1 & t2 & t3 & t4 & rest & -> & _). reflexivity. }
    rewrite Hlen, (normalize_values _ _ _ _ _ _ Hv).
    split; [|split].
    + intros Hzero.
      destruct (PrimFloat.eqb (py_max widx widy) 0); [reflexivity|].
      destruct (PrimFloat.eqb widx 0); [reflexivity|].
      destruct (PrimFloat.eqb widy 0); [reflexivity|].
      destruct Hzero; discriminate.
    + intros Hx Hy Hnf.
      rewrite (py_max_nonzero _ _ Hx Hy), Hx, Hy. simpl. rewrite Hnf.
      eexists; split;
        [reflexivity | apply could_not_parse_intrinsics_is_ParseError].
    + intros Hx Hy Hpos.
      rewrite (py_max_nonzero _ _ Hx Hy), Hx, Hy. simpl.
      rewrite (positive_not_leb_zero _ Hpos). reflexivity.
Qed.

(** C6, as amended.  Comment lines are skipped up to the first line that
    is not one, and that line alone decides the run, whatever follows it:
    with fewer than five tokens the message is printed and the run ends
    with exit status 1, the search does not go on; otherwise its first five
    tokens are normalised, with the failure of a bad token, of a zero
    dimension or of a focal length [<= 0]. *)
Theorem first_data_line_decides undist_intrinsics w text pre line rest :
  file_at w undist_intrinsics = Some text ->
  PyStr.readlines text = pre ++ line :: rest ->
  Forall (fun l => PyStr.match_leading_hash l = true) pre ->
  PyStr.match_leading_hash line = false ->
  convert_intrinsics_to_texrecon undist_intrinsics w =
  if (length (PyStr.split line) <? 5)%nat
  then (Raise (SystemExit 1), exit_world undist_intrinsics w)
  else
    match normalize (PyStr.split line) with
    | Raise e => (Raise e, w)
    | Ok k =>
        if PrimFloat.leb (nf k) 0
        then (Raise (could_not_parse_intrinsics undist_intrinsics), w)
        else (Ok k, w)
    end.
Proof.
  intros Hf Hlines Hpre Hline.
  rewrite convert_spec, Hf, Hlines.
  rewrite (first_data_line_after_comments pre line rest Hpre Hline).
  reflexivity.
Qed.

(** *** Camera files *)

Lemma str_app_cons x (a b : string) : String x a +:+ b = String x (a +:+ b).
Proof. reflexivity. Qed.

Lemma str_app_nil_l (a : string) : "" +:+ a = a.
Proof. reflexivity. Qed.

Lemma str_app_assoc (a b c : string) : (a +:+ b) +:+ c = a +:+ (b +:+ c).
Proof.
  induction a as [|x a IH]; [reflexivity|].
  rewrite !str_app_cons, IH. reflexivity.
Qed.

Lemma readlines_first_line s rest :
  has_nl s = false ->
  PyStr.readlines (s +:+ PyStr.nl +:+ rest) = (s +:+ PyStr.nl) :: PyStr.readlines rest.
Proof.
  induction s as [|c s IH]; intros H; [reflexivity|].
  simpl in H. apply orb_false_iff in H as [Hc Hs].
  rewrite !str_app_cons. simpl. rewrite Hc, (IH Hs). reflexivity.
Qed.

(** An iteration that completes has put the camera text in the file that
    the camera path names, and changed nothing else but the output. *)
Lemma write_camera_ok_inv images poses k it w w' :
  write_camera images poses k it w = (Ok tt, w') ->
  exists p s out,
    camera_file (realpath w) images poses k it = Some (p, s)
    /\ w' = World (realpath w) (writable w) (<[p := s]> (files w)) out.
Proof.
  unfold camera_file, camera_text, write_camera, getitem, io_bind, io_lift,
    print, open_w, write, file_at.
  destruct (images !! it) as [image|]; [|discriminate]. simpl.
  destruct (writable w (files w) (cam_path image)); [|discriminate].
  destruct (poses !! it) as [M|]; [|discriminate]. simpl.
  destruct (translation_text M) as [t|]; [|discriminate]. simpl.
  destruct (rotation_text M) as [r|]; [|discriminate]. simpl.
  intros H. injection H as <-.
  eexists _, _, _. split; [reflexivity|].
  rewrite !lookup_insert_eq, !insert_insert_eq. simpl.
  rewrite str_app_nil_l, str_app_assoc. reflexivity.
Qed.


Lemma written_cons rp images poses k it its m :
  written rp images poses k (it :: its) m
  = written rp images poses k its (put_file m (camera_file rp images poses k it)).
Proof. reflexivity. Qed.

(** A loop that completes leaves the files of [written]. *)
Lemma run_ok_inv images poses k its w w' :
  io_for_each its (write_camera images poses k) w = (Ok tt, w') ->
  Forall (fun it => is_Some (camera_file (realpath w) images poses k it)) its
  /\ exists out,
       w' = World (realpath w) (writable w)
              (written (realpath w) images poses k its (files w)) out.
Proof.
  revert w. induction its as [|it its IH]; intros w.
  - simpl. intros H. injection H as <-. split; [constructor|].
    exists (stdout w). destruct w; reflexivity.
  - cbn [io_for_each]. unfold io_bind at 1.
    destruct (write_camera images poses k it w) as [[[]|e] w1] eqn:Hit;
      [|discriminate].
    destruct (write_camera_ok_inv _ _ _ _ _ _ Hit) as (p & s & out1 & Hf & ->).
    intros Hrest. destruct (IH _ Hrest) as (Hall & out & ->).
    cbn [realpath writable files] in *.
    split; [constructor; [eexists; exact Hf | exact Hall]|].
    exists out. rewrite written_cons, Hf. reflexivity.
Qed.

Lemma io_for_each_cons {A} (x : A) xs (body : A -> io unit) w :
  io_for_each (x :: xs) body w =
  match body x w with
  | (Ok _, w') => io_for_each xs body w'
  | (Raise e, w') => (Raise e, w')
  end.
Proof. reflexivity. Qed.


Lemma written_snoc rp images poses k its it m :
  written rp images poses k (its ++ [it]) m =
  put_file (written rp images poses k its m) (camera_file rp images poses k it).
Proof. unfold written. rewrite foldl_snoc. reflexivity. Qed.

Lemma written_app rp images poses k l1 l2 m :
  written rp images poses k (l1 ++ l2) m
  = written rp images poses k l2 (written rp images poses k l1 m).
Proof. unfold written. apply foldl_app. Qed.

Lemma written_untouched rp images poses k its m p :
  existsb (targets rp images poses k p) its = false ->
  written rp images poses k its m !! p = m !! p.
Proof.
  induction its as [|it its IH] using rev_ind; intros H; [reflexivity|].
  rewrite existsb_app in H. apply orb_false_iff in H as [Hits Hit].
  simpl in Hit. rewrite orb_false_r in Hit.
  rewrite written_snoc. unfold targets in Hit.
  destruct (camera_file rp images poses k it) as [[p' s]|]; simpl; [|exact (IH Hits)].
  apply String.eqb_neq in Hit. rewrite lookup_insert_ne by exact Hit. exact (IH Hits).
Qed.

Lemma written_hit rp images poses k its p :
  existsb (targets rp images poses k p) its = true ->
  exists it s,
    it ∈ its /\ camera_file rp images poses k it = Some (p, s)
    /\ forall m, written rp images poses k its m !! p = Some s.
Proof.
  induction its as [|it its IH] using rev_ind; intros H; [discriminate|].
  rewrite existsb_app in H. simpl in H. rewrite orb_false_r in H.
  destruct (targets rp images poses k p it) eqn:Hit.
  - unfold targets in Hit.
    destruct (camera_file rp images poses k it) as [[p' s]|] eqn:Hf; [|discriminate].
    apply String.eqb_eq in Hit. subst p'.
    exists it, s. split; [apply elem_of_app; right; apply list_elem_of_singleton; reflexivity|].
    split; [exact Hf|]. intros m. rewrite written_snoc, Hf. simpl.
    apply lookup_insert_eq.
  - rewrite orb_false_r in H. destruct (IH H) as (it' & s & Hin & Hf & Hm).
    exists it', s. split; [apply elem_of_app; left; exact Hin|].
    split; [exact Hf|]. intros m. rewrite written_snoc.
    unfold targets in Hit.
    destruct (camera_file rp images poses k it) as [[p' s']|]; simpl; [|apply Hm].
    apply String.eqb_neq in Hit. rewrite lookup_insert_ne by exact Hit. apply Hm.
Qed.

Lemma written_idempotent rp images poses k its m :
  written rp images poses k its (written rp images poses k its m)
  = written rp images poses k its m.
Proof.
  apply map_eq. intros p.
  destruct (existsb (targets rp images poses k p) its) eqn:Hp.
  - destruct (written_hit _ _ _ _ _ _ Hp) as (it & s & _ & _ & Hm).
    rewrite !Hm. reflexivity.
  - rewrite (written_untouched _ _ _ _ _ _ _ Hp). reflexivity.
Qed.

(** Only the files that the camera paths name matter to what is written. *)
Lemma camera_file_ext rp rp' images poses k it :
  (forall image, image ∈ images -> rp' (cam_path image) = rp (cam_path image)) ->
  camera_file rp' images poses k it = camera_file rp images poses k it.
Proof.
  intros H. unfold camera_file.
  destruct (images !! it) as [image|] eqn:Hi; [|reflexivity].
  rewrite (H image (list_elem_of_lookup_2 _ _ _ Hi)). reflexivity.
Qed.

Lemma written_ext rp rp' images poses k its m :
  (forall image, image ∈ images -> rp' (cam_path image) = rp (cam_path image)) ->
  written rp' images poses k its m = written rp images poses k its m.
Proof.
  intros H. revert m. induction its as [|it its IH]; intros m; [reflexivity|].
  rewrite !written_cons, (camera_file_ext rp rp' _ _ _ _ H). apply IH.
Qed.

Lemma camera_text_ok_inv M k s :
  camera_text M k = Ok s ->
  s = extrinsics_line M +:+ PyStr.nl +:+ intrinsics_line k +:+ PyStr.nl.
Proof.
  unfold camera_text, translation_text, rotation_text, getitem2, getitem.
  intros H.
  repeat match type of H with
  | context [?l !! _] =>
      is_var l; destruct l as [|? l]; simpl in H; try discriminate H
  end.
  injection H as <-.
  unfold extrinsics_line, intrinsics_line, intrinsics_text, fmt_fields. simpl.
  rewrite !str_app_assoc. reflexivity.
Qed.

Lemma str_app_nil_r (a : string) : a +:+ "" = a.
Proof.
  induction a as [|x a IH]; [reflexivity|].
  rewrite str_app_cons, IH. reflexivity.
Qed.

Lemma readlines_two_lines a b :
  has_nl a = false -> has_nl b = false ->
  PyStr.readlines (a +:+ PyStr.nl +:+ b +:+ PyStr.nl)
  = [a +:+ PyStr.nl; b +:+ PyStr.nl].
Proof.
  intros Ha Hb. rewrite (readlines_first_line a _ Ha).
  rewrite <- (str_app_nil_r (b +:+ PyStr.nl)), str_app_assoc.
  rewrite (readlines_first_line b "" Hb). rewrite str_app_nil_r. reflexivity.
Qed.

(** A successful run leaves the files of [written]; name resolution and
    permissions are those it started with. *)
Lemma create_ok_inv images poses k w w' :
  create_texrecon_cameras images poses k w = (Ok tt, w') ->
  length images = length poses
  /\ Forall (fun it => is_Some (camera_file (realpath w) images poses k it))
       (seq 0 (length images))
  /\ realpath w' = realpath w
  /\ files w' = written (realpath w) images poses k (seq 0 (length images)) (files w).
Proof.
  unfold create_texrecon_cameras.
  destruct (length images =? length poses)%nat eqn:Hlen; simpl; [|discriminate].
  intros Hrun. apply Nat.eqb_eq in Hlen. split; [exact Hlen|].
  destruct (run_ok_inv _ _ _ _ _ _ Hrun) as (Hall & out & ->).
  split; [exact Hall|]. split; reflexivity.
Qed.


(** The last element of a list that satisfies a test. *)
Lemma last_index {A} (P : A -> bool) (l : list A) (x : A) :
  x ∈ l -> P x = true ->
  exists j y,
    l !! j = Some y /\ P y = true
    /\ forall j' y', (j < j')%nat -> l !! j' = Some y' -> P y' = false.
Proof.
  induction l as [|a l IH] using rev_ind; intros Hin HP; [inversion Hin|].
  destruct (P a) eqn:Ha.
  - exists (length l), a. split; [apply list_lookup_middle; reflexivity|].
    split; [exact Ha|]. intros j' y' Hlt Hj'.
    apply lookup_lt_Some in Hj'. rewrite length_app in Hj'. simpl in Hj'. lia.
  - apply elem_of_app in Hin as [Hin | Hin];
      [|apply list_elem_of_singleton in Hin; congruence].
    destruct (IH Hin HP) as (j & y & Hj & Hy & Hlast).
    exists j, y. split; [apply lookup_app_l_Some, Hj|]. split; [exact Hy|].
    intros j' y' Hlt Hj'.
    destruct (decide (j' < length l)%nat) as [Hl|Hl].
    + rewrite lookup_app_l in Hj' by exact Hl. exact (Hlast j' y' Hlt Hj').
    + pose proof (lookup_lt_Some _ _ _ Hj') as Hb.
      rewrite length_app in Hb. simpl in Hb.
      assert (j' = length l) by lia. subst j'.
      rewrite list_lookup_middle in Hj' by reflexivity. congruence.
Qed.

(** The file of index [j] when no later index writes to the same file. *)
Lemma written_last rp images poses k j image M m :
  Forall (fun it => is_Some (camera_file rp images poses k it))
    (seq 0 (length images)) ->
  images !! j = Some image ->
  poses !! j = Some M ->
  (forall j' image', (j < j')%nat -> images !! j' = Some image' ->
                     rp (cam_path image') <> rp (cam_path image)) ->
  written rp images poses k (seq 0 (length images)) m !! rp (cam_path image)
  = Some (extrinsics_line M +:+ PyStr.nl +:+ intrinsics_line k +:+ PyStr.nl).
Proof.
  intros Hall Hi Hp Hlater.
  pose proof (lookup_lt_Some _ _ _ Hi) as Hj.
  replace (length images) with (S j + (length images - S j))%nat in * by lia.
  rewrite seq_app, written_app, written_untouched.
  - rewrite seq_S, written_snoc. simpl.
    rewrite Forall_forall in Hall.
    destruct (Hall j) as [[p s] Hf]; [apply elem_of_seq; lia|].
    rewrite Hf. unfold camera_file in Hf. rewrite Hi, Hp in Hf.
    destruct (camera_text M k) as [s'|] eqn:Ht; [|discriminate].
    injection Hf as <- <-. simpl. rewrite lookup_insert_eq.
    rewrite (camera_text_ok_inv _ _ _ Ht). reflexivity.
  - destruct (existsb _ _) eqn:E; [|reflexivity].
    apply existsb_exists in E as (j' & Hin & Ht).
    apply list_elem_of_In, elem_of_seq in Hin.
    unfold targets, camera_file in Ht.
    destruct (images !! j') as [image'|] eqn:Hi'; [|discriminate].
    destruct (poses !! j'); [|discriminate].
    destruct (camera_text _ k); [|discriminate].
    apply String.eqb_eq in Ht. exfalso.
    apply (Hlater j' image'); [simpl in Hin; lia | exact Hi' | exact Ht].
Qed.

(** The file of index [j] after a successful run. *)
Lemma last_write_wins images poses k w w' j image M :
  create_texrecon_cameras images poses k w = (Ok tt, w') ->
  images !! j = Some image ->
  poses !! j = Some M ->
  (forall j' image', (j < j')%nat -> images !! j' = Some image' ->
                     realpath w (cam_path image') <> realpath w (cam_path image)) ->
  file_at w' (cam_path image)
  = Some (extrinsics_line M +:+ PyStr.nl +:+ intrinsics_line k +:+ PyStr.nl).
Proof.
  intros Hrun Hi Hp Hlater.
  destruct (create_ok_inv _ _ _ _ _ Hrun) as (_ & Hall & Hrp & Hfiles).
  unfold file_at. rewrite Hrp, Hfiles.
  exact (written_last _ _ _ _ j image M _ Hall Hi Hp Hlater).
Qed.

(** The file of an image after the run: some iteration whose camera path
    names the same file wrote it last. *)
Lemma written_image rp images poses k image :
  Forall (fun it => is_Some (camera_file rp images poses k it))
    (seq 0 (length images)) ->
  image ∈ images ->
  exists it s,
    camera_file rp images poses k it = Some (rp (cam_path image), s)
    /\ forall m,
         written rp images poses k (seq 0 (length images)) m !! rp (cam_path image)
         = Some s.
Proof.
  intros Hall Hin.
  apply list_elem_of_lookup in Hin as [it0 Hit0].
  assert (Hseq : it0 ∈ seq 0 (length images)).
  { apply elem_of_seq. apply lookup_lt_Some in Hit0. lia. }
  assert (Hex : existsb (targets rp images poses k (rp (cam_path image)))
                  (seq 0 (length images)) = true).
  { apply existsb_exists. exists it0. split; [apply list_elem_of_In, Hseq|].
    rewrite Forall_forall in Hall. destruct (Hall it0 Hseq) as [[p s] Hf].
    unfold targets. rewrite Hf. unfold camera_file in Hf. rewrite Hit0 in Hf.
    destruct (poses !! it0); [|discriminate].
    destruct (camera_text _ k); [|discriminate].
    injection Hf as <- _. apply String.eqb_refl. }
  destruct (written_hit _ _ _ _ _ _ Hex) as (it & s & _ & Hf & Hm).
  exists it, s. split; assumption.
Qed.

(** C3.  With image and pose lists of different lengths the writer raises
    the [CountMismatchError] and the world, files and output alike, is the
    one it started from. *)
Theorem count_mismatch_writes_nothing images poses k w :
  length images <> length poses ->
  exists e,
    create_texrecon_cameras images poses k w = (Raise e, w)
    /\ is_CountMismatchError e = true.
Proof.
  intros Hlen. unfold create_texrecon_cameras.
  apply Nat.eqb_neq in Hlen. rewrite Hlen. simpl.
  exists count_mismatch. split; reflexivity.
Qed.

(** C1, as amended.  After a successful run the camera file of every image
    is the text of two lines, each ended by a newline and with [%0.17g]
    numbers one space apart: translation x, y, z followed by the nine
    rotation entries in row-major order on the first, then [nf d0 d1 paspect
    ncx ncy] on the second.  The pose is that of the last index whose camera
    path names the same file.  When no formatted number holds a newline,
    reading the file back gives exactly these two lines. *)
Theorem camera_file_has_two_lines images poses k w w' image :
  create_texrecon_cameras images poses k w = (Ok tt, w') ->
  image ∈ images ->
  exists it image' M,
    images !! it = Some image'
    /\ realpath w' (cam_path image') = realpath w' (cam_path image)
    /\ (forall j image'', (it < j)%nat -> images !! j = Some image'' ->
          realpath w' (cam_path image'') <> realpath w' (cam_path image))
    /\ poses !! it = Some M
    /\ file_at w' (cam_path image)
       = Some (extrinsics_line M +:+ PyStr.nl
               +:+ intrinsics_line k +:+ PyStr.nl)
    /\ (has_nl (extrinsics_line M) = false ->
        has_nl (intrinsics_line k) = false ->
        PyStr.readlines (extrinsics_line M +:+ PyStr.nl
                         +:+ intrinsics_line k +:+ PyStr.nl)
        = [extrinsics_line M +:+ PyStr.nl;
           intrinsics_line k +:+ PyStr.nl]).
Proof.
  intros Hrun Hin.
  destruct (create_ok_inv _ _ _ _ _ Hrun) as (Hlen & Hall & Hrp & Hfiles).
  destruct (last_index
              (fun i => String.eqb (realpath w (cam_path i))
                          (realpath w (cam_path image)))
              images image Hin (String.eqb_refl _))
    as (it & image' & Hi & Hsame & Hlast).
  apply String.eqb_eq in Hsame.
  destruct (lookup_lt_is_Some_2 poses it) as [M HM].
  { apply lookup_lt_Some in Hi. lia. }
  assert (Hlater : forall j image'', (it < j)%nat -> images !! j = Some image'' ->
            realpath w (cam_path image'') <> realpath w (cam_path image)).
  { intros j image'' Hlt Hj. apply String.eqb_neq. exact (Hlast j image'' Hlt Hj). }
  exists it, image', M. rewrite Hrp.
  split; [exact Hi|]. split; [exact Hsame|]. split; [exact Hlater|].
  split; [exact HM|]. split; [|apply readlines_two_lines].
  unfold file_at. rewrite Hrp, Hfiles, <- Hsame.
  apply (written_last _ _ _ _ it image' M _ Hall Hi HM).
  intros j image'' Hlt Hj. rewrite Hsame. exact (Hlater j image'' Hlt Hj).
Qed.

(** *** Strings and paths *)

Lemma str_length_app (a b : string) :
  String.length (a +:+ b) = (String.length a + String.length b)%nat.
Proof.
  induction a as [|x a IH]; [reflexivity|].
  rewrite str_app_cons. simpl. rewrite IH. reflexivity.
Qed.

Lemma take_app (a b : string) : PyStr.take (String.length a) (a +:+ b) = a.
Proof.
  induction a as [|x a IH]; [destruct b; reflexivity|].
  rewrite str_app_cons. simpl. rewrite IH. reflexivity.
Qed.

Lemma drop_app (a b : string) : PyStr.drop (String.length a) (a +:+ b) = b.
Proof.
  induction a as [|x a IH]; [reflexivity|].
  rewrite str_app_cons. simpl. exact IH.
Qed.

Lemma take_drop (n : nat) (s : string) : PyStr.take n s +:+ PyStr.drop n s = s.
Proof.
  revert s. induction n as [|n IH]; intros s; [reflexivity|].
  destruct s as [|c s]; [reflexivity|].
  simpl. rewrite str_app_cons, IH. reflexivity.
Qed.

Lemma contains_char_app ch (a b : string) :
  contains_char ch (a +:+ b) = contains_char ch a || contains_char ch b.
Proof.
  induction a as [|x a IH]; [reflexivity|].
  rewrite str_app_cons. simpl. rewrite IH, orb_assoc. reflexivity.
Qed.

(** [rfind] walks the whole string and keeps the last hit. *)
Lemma rfind_from_app (a b : string) ch i last :
  PyStr.rfind_from (a +:+ b) ch i last =
  PyStr.rfind_from b ch (i + Z.of_nat (String.length a))
    (PyStr.rfind_from a ch i last).
Proof.
  revert i last. induction a as [|x a IH]; intros i last.
  - simpl. rewrite Z.add_0_r. reflexivity.
  - rewrite str_app_cons. simpl PyStr.rfind_from. rewrite IH.
    f_equal. simpl String.length. lia.
Qed.

Lemma rfind_from_absent (s : string) ch i last :
  contains_char ch s = false -> PyStr.rfind_from s ch i last = last.
Proof.
  revert i last. induction s as [|x s IH]; intros i last H; [reflexivity|].
  simpl in H. apply orb_false_iff in H as [Hx Hs].
  simpl. rewrite Hx. apply IH, Hs.
Qed.

Lemma rfind_absent (s : string) ch :
  contains_char ch s = false -> PyStr.rfind s ch = (-1)%Z.
Proof. apply rfind_from_absent. Qed.

Lemma rfind_last (a b : string) ch :
  contains_char ch b = false ->
  PyStr.rfind (a +:+ String ch b) ch = Z.of_nat (String.length a).
Proof.
  intros Hb. unfold PyStr.rfind. rewrite rfind_from_app. simpl.
  rewrite Ascii.eqb_refl. rewrite (rfind_from_absent _ _ _ _ Hb). lia.
Qed.

Lemma rfind_app_absent (a b : string) ch :
  contains_char ch b = false -> PyStr.rfind (a +:+ b) ch = PyStr.rfind a ch.
Proof.
  intros Hb. unfold PyStr.rfind. rewrite rfind_from_app.
  apply rfind_from_absent, Hb.
Qed.

Lemma rfind_from_range (s : string) ch i last :
  PyStr.rfind_from s ch i last = last
  \/ (i <= PyStr.rfind_from s ch i last < i + Z.of_nat (String.length s))%Z.
Proof.
  revert i last. induction s as [|x s IH]; intros i last; [left; reflexivity|].
  simpl PyStr.rfind_from.
  destruct (IH (i + 1)%Z (if Ascii.eqb x ch then i else last)) as [H|H].
  - rewrite H. destruct (Ascii.eqb x ch); [right|left; reflexivity].
    simpl String.length. lia.
  - right. simpl String.length. lia.
Qed.

Lemma rfind_range (s : string) ch :
  (-1 <= PyStr.rfind s ch < Z.of_nat (String.length s))%Z.
Proof.
  unfold PyStr.rfind.
  destruct (rfind_from_range s ch 0 (-1)) as [H|H]; lia.
Qed.

(** A string either lacks [ch] or splits at its last occurrence. *)
Lemma last_occurrence ch (s : string) :
  contains_char ch s = false
  \/ exists a b, s = a +:+ String ch b /\ contains_char ch b = false.
Proof.
  induction s as [|x s IH]; [left; reflexivity|].
  destruct IH as [Hs | (a & b & -> & Hb)].
  - destruct (Ascii.eqb x ch) eqn:Hx.
    + right. apply Ascii.eqb_eq in Hx. subst x.
      exists "", s. split; [reflexivity | exact Hs].
    + left. simpl. rewrite Hx, Hs. reflexivity.
  - right. exists (String x a), b. split; [reflexivity | exact Hb].
Qed.

Lemma upto_length (a b : string) :
  PyStr.upto (Z.of_nat (String.length a)) (a +:+ b) = a.
Proof. unfold PyStr.upto. rewrite Nat2Z.id. apply take_app. Qed.

Lemma from_length (a b : string) :
  PyStr.from (Z.of_nat (String.length a)) (a +:+ b) = b.
Proof. unfold PyStr.from. rewrite Nat2Z.id. apply drop_app. Qed.

Lemma basename_no_sep (p : string) :
  contains_char "/" p = false -> PosixPath.basename p = p.
Proof.
  intros H. unfold PosixPath.basename. rewrite (rfind_absent _ _ H). reflexivity.
Qed.

Lemma basename_last (a b : string) :
  contains_char "/" b = false -> PosixPath.basename (a +:+ String "/" b) = b.
Proof.
  intros H. unfold PosixPath.basename. rewrite (rfind_last _ _ _ H).
  replace (Z.of_nat (String.length a) + 1)%Z
    with (Z.of_nat (String.length (a +:+ "/"))).
  - rewrite <- (from_length (a +:+ "/") b) at 2.
    rewrite str_app_assoc. reflexivity.
  - rewrite str_length_app. simpl. lia.
Qed.

Lemma basename_has_no_sep (p : string) :
  contains_char "/" (PosixPath.basename p) = false.
Proof.
  destruct (last_occurrence "/" p) as [H | (a & b & -> & H)].
  - rewrite (basename_no_sep _ H). exact H.
  - rewrite (basename_last _ _ H). exact H.
Qed.

Lemma rstrip_char_repeat ch n : PyStr.rstrip_char ch (PyStr.repeat_char ch n) = "".
Proof.
  induction n as [|n IH]; [reflexivity|].
  simpl. rewrite IH, Ascii.eqb_refl. reflexivity.
Qed.

Lemma rstrip_char_app_repeat ch (s : string) n :
  PyStr.rstrip_char ch (s +:+ PyStr.repeat_char ch n) = PyStr.rstrip_char ch s.
Proof.
  induction s as [|x s IH]; [apply rstrip_char_repeat|].
  rewrite str_app_cons. simpl. rewrite IH. reflexivity.
Qed.

Lemma rstrip_char_absent ch (s : string) :
  contains_char ch s = false -> PyStr.rstrip_char ch s = s.
Proof.
  induction s as [|x s IH]; intros H; [reflexivity|].
  simpl in H. apply orb_false_iff in H as [Hx Hs].
  simpl. rewrite (IH Hs), Hx. destruct s; reflexivity.
Qed.

Lemma rstrip_char_app_keep ch (a b : string) :
  PyStr.rstrip_char ch b <> "" ->
  PyStr.rstrip_char ch (a +:+ b) = a +:+ PyStr.rstrip_char ch b.
Proof.
  intros Hb. induction a as [|x a IH]; [reflexivity|].
  rewrite !str_app_cons. simpl. rewrite IH.
  destruct (a +:+ PyStr.rstrip_char ch b) eqn:E; [|reflexivity].
  destruct a; [|discriminate E]. rewrite str_app_nil_l in E. contradiction.
Qed.

Lemma repeat_char_inv ch n (a b : string) x :
  PyStr.repeat_char ch n = a +:+ String x b -> x = ch.
Proof.
  revert a. induction n as [|n IH]; intros a H.
  - destruct a; discriminate H.
  - destruct a as [|y a].
    + rewrite str_app_nil_l in H. simpl in H. congruence.
    + rewrite str_app_cons in H. simpl in H. injection H as _ H. exact (IH _ H).
Qed.

Lemma repeat_char_shift ch n (s : string) :
  PyStr.repeat_char ch n +:+ String ch s = String ch (PyStr.repeat_char ch n +:+ s).
Proof.
  induction n as [|n IH]; [reflexivity|].
  simpl. rewrite !str_app_cons, IH. reflexivity.
Qed.

Ltac str_norm :=
  repeat (rewrite str_app_assoc || rewrite str_app_cons || rewrite str_app_nil_l).

(** The directory of an image path whose last component is [name]: the
    text before the slashes that precede it, when that text holds something
    other than slashes. *)
Lemma dirname_parent (a : string) x (b : string) n (name : string) :
  Ascii.eqb x "/" = false ->
  contains_char "/" b = false ->
  contains_char "/" name = false ->
  PosixPath.dirname (a +:+ String x b +:+ PyStr.repeat_char "/" (S n) +:+ name)
  = a +:+ String x b.
Proof.
  intros Hx Hb Hname. unfold PosixPath.dirname.
  set (stem := a +:+ String x b +:+ PyStr.repeat_char "/" n).
  assert (Hp : a +:+ String x b +:+ PyStr.repeat_char "/" (S n) +:+ name
               = stem +:+ String "/" name).
  { unfold stem. simpl. str_norm. rewrite repeat_char_shift. reflexivity. }
  rewrite Hp, (rfind_last _ _ _ Hname).
  replace (Z.of_nat (String.length stem) + 1)%Z
    with (Z.of_nat (String.length (stem +:+ "/")))
    by (rewrite str_length_app; simpl; lia).
  replace (stem +:+ String "/" name) with ((stem +:+ "/") +:+ name)
    by (str_norm; reflexivity).
  rewrite upto_length.
  assert (Hne : String.eqb (stem +:+ "/") "" = false).
  { apply String.eqb_neq. unfold stem. destruct a; discriminate. }
  assert (Hns : String.eqb (stem +:+ "/")
                  (PyStr.repeat_char "/" (String.length (stem +:+ "/"))) = false).
  { apply String.eqb_neq. intros E. symmetry in E. unfold stem at 2 in E.
    rewrite str_app_assoc in E. apply repeat_char_inv in E.
    subst x. discriminate Hx. }
  rewrite Hne, Hns. simpl.
  assert (Hxb : contains_char "/" (String x b) = false)
    by (simpl; rewrite Hx, Hb; reflexivity).
  replace (stem +:+ "/") with ((a +:+ String x b) +:+ PyStr.repeat_char "/" (S n)).
  - rewrite rstrip_char_app_repeat, rstrip_char_app_keep;
      rewrite (rstrip_char_absent _ _ Hxb); [reflexivity | discriminate].
  - unfold stem. simpl. str_norm.
    rewrite repeat_char_shift, str_app_nil_r. reflexivity.
Qed.

(** X8.  The sensor of an image path [pre sensor /.../ name], where [pre]
    is empty or ends in a slash, [sensor] is a non-empty name without a
    slash, one slash or more follow it, and [name] has no slash, is
    [sensor]. *)
Theorem sensor_of_parent_directory (pre sensor name : string) (n : nat) :
  pre = "" \/ (exists d, pre = d +:+ "/") ->
  sensor <> "" ->
  contains_char "/" sensor = false ->
  contains_char "/" name = false ->
  sensor_of (pre +:+ sensor +:+ PyStr.repeat_char "/" (S n) +:+ name) = sensor.
Proof.
  intros Hpre Hne Hs Hname. unfold sensor_of.
  destruct sensor as [|x b]; [contradiction|].
  simpl in Hs. apply orb_false_iff in Hs as [Hx Hb].
  rewrite (dirname_parent pre x b n name Hx Hb Hname).
  assert (Hxb : contains_char "/" (String x b) = false)
    by (simpl; rewrite Hx, Hb; reflexivity).
  destruct Hpre as [-> | (d & ->)].
  - rewrite str_app_nil_l. apply basename_no_sep, Hxb.
  - rewrite str_app_assoc. apply (basename_last d (String x b) Hxb).
Qed.

Lemma sensor_of_no_directory (image : string) :
  contains_char "/" image = false -> sensor_of image = "".
Proof.
  intros H. unfold sensor_of, PosixPath.dirname.
  rewrite (rfind_absent _ _ H). simpl. reflexivity.
Qed.

Lemma slice_at (pre : string) c (s : string) :
  PyStr.slice (Z.of_nat (String.length pre)) (Z.of_nat (String.length pre) + 1)
    (pre +:+ String c s) = String c "".
Proof.
  unfold PyStr.slice. rewrite from_length.
  replace (Z.of_nat (String.length pre) + 1 - Z.of_nat (String.length pre))%Z
    with 1%Z by lia.
  reflexivity.
Qed.

(** The loop of [splitext] over the file name [x] that precedes the last
    dot: it finds an extension unless [x] is made of dots. *)
Lemma splitext_loop_name (pre x rest : string) :
  PosixPath.splitext_loop (pre +:+ x +:+ rest)
    (Z.of_nat (String.length pre) + Z.of_nat (String.length x))
    (String.length x) (Z.of_nat (String.length pre))
  = if all_dots x then (pre +:+ x +:+ rest, "") else (pre +:+ x, rest).
Proof.
  revert pre. induction x as [|c x IH]; intros pre; [reflexivity|].
  simpl PosixPath.splitext_loop. rewrite str_app_cons, slice_at.
  simpl all_dots. destruct (Ascii.eqb c ".") eqn:Hc.
  - apply Ascii.eqb_eq in Hc. subst c. simpl negb. cbn iota.
    specialize (IH (pre +:+ ".")).
    rewrite (str_length_app pre ".") in IH. simpl String.length in IH.
    replace (Z.of_nat (String.length pre + 1)) with (Z.of_nat (String.length pre) + 1)%Z
      in IH by lia.
    replace (Z.of_nat (String.length pre) + Z.of_nat (S (String.length x)))%Z
      with (Z.of_nat (String.length pre) + 1 + Z.of_nat (String.length x))%Z by lia.
    replace (pre +:+ String "." (x +:+ rest)) with ((pre +:+ ".") +:+ x +:+ rest)
      by (str_norm; reflexivity).
    rewrite IH. simpl. destruct (all_dots x); [reflexivity|].
    f_equal. str_norm. reflexivity.
  - replace (negb (String c "" =? ".")) with true.
    + replace (Z.of_nat (String.length pre) + Z.of_nat (S (String.length x)))%Z
        with (Z.of_nat (String.length (pre +:+ String c x)))
        by (rewrite str_length_app; simpl String.length; lia).
      replace (pre +:+ String c (x +:+ rest)) with ((pre +:+ String c x) +:+ rest)
        by (str_norm; reflexivity).
      rewrite upto_length, from_length. reflexivity.
    + symmetry. apply negb_true_iff, String.eqb_neq. intros E.
      injection E as E. subst c. discriminate Hc.
Qed.

Lemma rfind_sep_prefix (pre b : string) :
  dir_prefix pre -> contains_char "/" b = false ->
  (PyStr.rfind (pre +:+ b) "/" + 1)%Z = Z.of_nat (String.length pre).
Proof.
  intros [-> | (d & ->)] Hb.
  - rewrite str_app_nil_l, (rfind_absent _ _ Hb). reflexivity.
  - rewrite str_app_assoc. change ("/" +:+ b) with (String "/" b).
    rewrite (rfind_last _ _ _ Hb), str_length_app. simpl. lia.
Qed.

Lemma rfind_dot_prefix (pre : string) :
  dir_prefix pre ->
  (PyStr.rfind pre "." < PyStr.rfind pre "/" \/ PyStr.rfind pre "." = -1)%Z.
Proof.
  intros [-> | (d & ->)]; [right; reflexivity|].
  rewrite (rfind_app_absent d "/" ".") by reflexivity.
  change (d +:+ "/") with (d +:+ String "/" "").
  rewrite (rfind_last d "" "/") by reflexivity.
  pose proof (rfind_range d "."). lia.
Qed.

Lemma splitext_no_dot (pre b : string) :
  dir_prefix pre -> contains_char "/" b = false -> contains_char "." b = false ->
  PosixPath.splitext (pre +:+ b) = (pre +:+ b, "").
Proof.
  intros Hpre Hs Hd. unfold PosixPath.splitext.
  pose proof (rfind_sep_prefix pre b Hpre Hs) as Hsep.
  rewrite (rfind_app_absent pre b "." Hd).
  rewrite (rfind_app_absent pre b "/" Hs) in *.
  destruct (rfind_dot_prefix pre Hpre) as [H|H].
  - replace (PyStr.rfind pre "/" <? PyStr.rfind pre ".")%Z with false; [reflexivity|].
    symmetry. apply Z.ltb_ge. lia.
  - rewrite H. pose proof (rfind_range pre "/").
    replace (PyStr.rfind pre "/" <? -1)%Z with false; [reflexivity|].
    symmetry. apply Z.ltb_ge. lia.
Qed.

Lemma splitext_dot (pre x y : string) :
  dir_prefix pre ->
  contains_char "/" x = false -> contains_char "/" y = false ->
  contains_char "." y = false ->
  PosixPath.splitext (pre +:+ x +:+ "." +:+ y)
  = if all_dots x then (pre +:+ x +:+ "." +:+ y, "")
    else (pre +:+ x, "." +:+ y).
Proof.
  intros Hpre Hx Hy Hd. unfold PosixPath.splitext.
  assert (Hs : contains_char "/" (x +:+ "." +:+ y) = false).
  { rewrite !contains_char_app, Hx, Hy. reflexivity. }
  pose proof (rfind_sep_prefix pre _ Hpre Hs) as Hsep.
  assert (Hdot : PyStr.rfind (pre +:+ x +:+ "." +:+ y) "."
                 = (Z.of_nat (String.length pre) + Z.of_nat (String.length x))%Z).
  { replace (pre +:+ x +:+ "." +:+ y) with ((pre +:+ x) +:+ String "." y)
      by (str_norm; reflexivity).
    rewrite (rfind_last _ _ _ Hd), str_length_app. lia. }
  rewrite Hdot.
  replace (PyStr.rfind (pre +:+ x +:+ "." +:+ y) "/" + 1)%Z
    with (Z.of_nat (String.length pre)) by (symmetry; exact Hsep).
  replace (PyStr.rfind (pre +:+ x +:+ "." +:+ y) "/"
           <? Z.of_nat (String.length pre) + Z.of_nat (String.length x))%Z
    with true by (symmetry; apply Z.ltb_lt; lia).
  replace (Z.to_nat (Z.of_nat (String.length pre) + Z.of_nat (String.length x)
                     - Z.of_nat (String.length pre)))
    with (String.length x) by lia.
  apply (splitext_loop_name pre x ("." +:+ y)).
Qed.

(** [splitext] looks at the last component of the path only. *)
Lemma splitext_last_component (pre b : string) :
  dir_prefix pre -> contains_char "/" b = false ->
  PosixPath.splitext (pre +:+ b)
  = (pre +:+ fst (PosixPath.splitext b), snd (PosixPath.splitext b)).
Proof.
  intros Hpre Hs.
  destruct (last_occurrence "." b) as [Hd | (x & y & -> & Hd)].
  - rewrite (splitext_no_dot pre b Hpre Hs Hd).
    pose proof (splitext_no_dot "" b (or_introl eq_refl) Hs Hd) as H0.
    rewrite !str_app_nil_l in H0. rewrite H0. reflexivity.
  - rewrite contains_char_app in Hs. apply orb_false_iff in Hs as [Hx Hy].
    simpl in Hy.
    change (x +:+ String "." y) with (x +:+ "." +:+ y).
    rewrite (splitext_dot pre x y Hpre Hx Hy Hd).
    pose proof (splitext_dot "" x y (or_introl eq_refl) Hx Hy Hd) as H0.
    rewrite !str_app_nil_l in H0. rewrite H0.
    destruct (all_dots x); reflexivity.
Qed.

Lemma splitext_loop_law (p : string) dotIndex n i :
  fst (PosixPath.splitext_loop p dotIndex n i)
  +:+ snd (PosixPath.splitext_loop p dotIndex n i) = p.
Proof.
  revert i. induction n as [|n IH]; intros i; simpl; [apply str_app_nil_r|].
  destruct (negb _); [apply take_drop | apply IH].
Qed.

Lemma splitext_law (p : string) :
  fst (PosixPath.splitext p) +:+ snd (PosixPath.splitext p) = p.
Proof.
  unfold PosixPath.splitext.
  destruct (_ <? _)%Z; [apply splitext_loop_law | apply str_app_nil_r].
Qed.

Lemma splitext_root_no_sep (b : string) :
  contains_char "/" b = false ->
  contains_char "/" (fst (PosixPath.splitext b)) = false.
Proof.
  intros H. rewrite <- (splitext_law b), contains_char_app in H.
  apply orb_false_iff in H as [H _]. exact H.
Qed.

Lemma undistorted_image_stem (undist_dir image : string) :
  undistorted_image undist_dir image
  = undist_dir +:+ "/"
    +:+ fst (PosixPath.splitext (PosixPath.basename image)) +:+ ".jpg".
Proof.
  assert (Hpre : dir_prefix (undist_dir +:+ "/")) by (right; eexists; reflexivity).
  unfold undistorted_image.
  rewrite <- (str_app_assoc undist_dir "/" (PosixPath.basename image)).
  rewrite (splitext_last_component _ _ Hpre (basename_has_no_sep image)).
  simpl fst. str_norm. reflexivity.
Qed.

(** X14.  The undistorted copy of an image is [undist_dir/stem.jpg], with
    [stem] the file name of the image without its extension, and its
    camera file is [undist_dir/stem.cam]; only when [stem] is empty or made
    of dots is the camera file [undist_dir/stem.jpg.cam]. *)
Theorem camera_beside_undistorted_image (undist_dir image : string) :
  undistorted_image undist_dir image
  = undist_dir +:+ "/"
    +:+ fst (PosixPath.splitext (PosixPath.basename image)) +:+ ".jpg"
  /\ cam_path (undistorted_image undist_dir image)
     = if all_dots (fst (PosixPath.splitext (PosixPath.basename image)))
       then undist_dir +:+ "/"
            +:+ fst (PosixPath.splitext (PosixPath.basename image))
            +:+ ".jpg.cam"
       else undist_dir +:+ "/"
            +:+ fst (PosixPath.splitext (PosixPath.basename image))
            +:+ ".cam".
Proof.
  assert (Hpre : dir_prefix (undist_dir +:+ "/")) by (right; eexists; reflexivity).
  pose proof (splitext_root_no_sep _ (basename_has_no_sep image)) as Hstem.
  split; [apply undistorted_image_stem|].
  rewrite undistorted_image_stem. unfold cam_path.
  set (stem := fst (PosixPath.splitext (PosixPath.basename image))) in *.
  replace (undist_dir +:+ "/" +:+ stem +:+ ".jpg")
    with ((undist_dir +:+ "/") +:+ stem +:+ "." +:+ "jpg")
    by (str_norm; reflexivity).
  rewrite (splitext_dot _ stem "jpg" Hpre Hstem eq_refl eq_refl).
  destruct (all_dots stem); simpl fst; str_norm; reflexivity.
Qed.

(** X15.  The camera path of an image is the image path with a suffix cut
    and [.cam] appended; the suffix has no slash and is either empty or a
    dot followed by text without a dot. *)
Theorem cam_path_replaces_extension (image : string) :
  exists root ext,
    image = root +:+ ext
    /\ cam_path image = root +:+ ".cam"
    /\ contains_char "/" ext = false
    /\ (ext = "" \/ exists y, ext = "." +:+ y /\ contains_char "." y = false).
Proof.
  unfold cam_path.
  assert (Hcases : exists pre b, image = pre +:+ b /\ dir_prefix pre
                                 /\ contains_char "/" b = false).
  { destruct (last_occurrence "/" image) as [H | (a & b & -> & H)].
    - exists "", image. split; [reflexivity|]. split; [left; reflexivity | exact H].
    - exists (a +:+ "/"), b. split; [str_norm; reflexivity|].
      split; [right; eexists; reflexivity | exact H]. }
  destruct Hcases as (pre & b & -> & Hpre & Hs).
  destruct (last_occurrence "." b) as [Hd | (x & y & -> & Hd)].
  - rewrite (splitext_no_dot pre b Hpre Hs Hd).
    exists (pre +:+ b), "". simpl fst. rewrite str_app_nil_r. auto.
  - rewrite contains_char_app in Hs. apply orb_false_iff in Hs as [Hx Hy].
    simpl in Hy. change (x +:+ String "." y) with (x +:+ "." +:+ y).
    rewrite (splitext_dot pre x y Hpre Hx Hy Hd).
    destruct (all_dots x); simpl fst.
    + exists (pre +:+ x +:+ "." +:+ y), "". rewrite str_app_nil_r. auto.
    + exists (pre +:+ x), ("." +:+ y). split; [str_norm; reflexivity|].
      split; [reflexivity|]. split; [exact Hy|].
      right. exists y. split; [reflexivity | exact Hd].
Qed.

(** *** The command line *)

Lemma concat_empty_sep_cons (a : string) (l : list string) :
  String.concat "" (a :: l) = a +:+ String.concat "" l.
Proof. destruct l; simpl; [rewrite str_app_nil_r|]; reflexivity. Qed.

Lemma format_cmd_fold (cmd l : list string) (ans : string) :
  foldl (format_arg cmd) ans l
  = ans +:+ String.concat ""
              (map (fun val =>
                      format_one (contains_char " " val || list_contains tab cmd)
                        val) l).
Proof.
  revert ans. induction l as [|val l IH]; intros ans.
  - simpl. rewrite str_app_nil_r. reflexivity.
  - simpl foldl. rewrite IH. simpl map. rewrite concat_empty_sep_cons.
    unfold format_arg. rewrite str_app_assoc. reflexivity.
Qed.

(** X1.  [format_cmd] writes every argument followed by one space.  When
    no argument of the command is exactly a tab, an argument is put in
    double quotes exactly when it holds a space, so an argument with a tab
    inside and no space stays bare; when some argument is exactly a tab,
    every argument is quoted. *)
Theorem format_cmd_quoting (cmd : list string) :
  format_cmd cmd
  = String.concat ""
      (map (fun val =>
              format_one (if list_contains tab cmd then true
                          else contains_char " " val) val) cmd).
Proof.
  unfold format_cmd. rewrite format_cmd_fold, str_app_nil_l.
  destruct (list_contains tab cmd); [|f_equal; apply map_ext; intros;
    rewrite orb_false_r; reflexivity].
  f_equal. apply map_ext. intros. rewrite orb_true_r. reflexivity.
Qed.

Lemma split_leading_space c (s : string) :
  PyStr.isspace c = true -> PyStr.split (String c s) = PyStr.split s.
Proof. intros H. simpl. rewrite H. reflexivity. Qed.

(** A token and the whitespace after it. *)
Lemma split_token (tok : string) c (rest : string) :
  tok <> "" -> has_space tok = false -> PyStr.isspace c = true ->
  PyStr.split (tok +:+ String c rest) = tok :: PyStr.split rest.
Proof.
  intros Hne. induction tok as [|x tok IH]; [contradiction|].
  intros Hs Hc. simpl in Hs. apply orb_false_iff in Hs as [Hx Hs].
  rewrite str_app_cons. simpl PyStr.split. rewrite Hx.
  destruct tok as [|y tok].
  - rewrite str_app_nil_l, Hc, (split_leading_space _ _ Hc). reflexivity.
  - rewrite str_app_cons. simpl in Hs. apply orb_false_iff in Hs as [Hy Hs'].
    rewrite Hy. rewrite <- str_app_cons.
    rewrite IH; [reflexivity | discriminate | simpl; rewrite Hy, Hs'; reflexivity
                | exact Hc].
Qed.

Lemma has_space_contains (s : string) :
  has_space s = false -> contains_char " " s = false.
Proof.
  induction s as [|c s IH]; [reflexivity|].
  simpl. intros H. apply orb_false_iff in H as [Hc Hs].
  rewrite (IH Hs), orb_false_r.
  destruct (Ascii.eqb c " ") eqn:E; [|reflexivity].
  apply Ascii.eqb_eq in E. subst c. discriminate Hc.
Qed.

Lemma no_space_not_tab (l : list string) :
  Forall (fun val => val <> "" /\ has_space val = false) l ->
  list_contains tab l = false.
Proof.
  induction 1 as [|val l [_ Hs] _ IH]; [reflexivity|].
  unfold list_contains in *. cbn [existsb]. rewrite IH, orb_false_r.
  apply String.eqb_neq. intros <-. discriminate Hs.
Qed.

(** X2.  For a command whose arguments are non-empty and free of
    whitespace, splitting the command line of [format_cmd] on whitespace
    gives the arguments back. *)
Theorem format_cmd_split (cmd : list string) :
  Forall (fun val => val <> "" /\ has_space val = false) cmd ->
  PyStr.split (format_cmd cmd) = cmd.
Proof.
  intros Hall. unfold format_cmd. rewrite format_cmd_fold, str_app_nil_l.
  rewrite (no_space_not_tab cmd Hall). clear -Hall.
  induction Hall as [|val l [Hne Hs] _ IH]; [reflexivity|].
  assert (E : String.concat ""
                (map (fun val => format_one (contains_char " " val || false) val)
                   (val :: l))
              = val +:+ String " "
                  (String.concat ""
                     (map (fun val => format_one (contains_char " " val || false) val)
                        l))).
  { simpl map. rewrite concat_empty_sep_cons. unfold format_one at 1.
    rewrite (has_space_contains _ Hs). simpl orb. cbn iota.
    str_norm. reflexivity. }
  rewrite E, (split_token val " " _ Hne Hs eq_refl), IH. reflexivity.
Qed.

Lemma sanity_checks_ok_inv (args : Args.t) :
  sanity_checks args = Ok tt ->
  Args.image_list args <> "" /\ Args.mesh args <> ""
  /\ Args.rig_config args <> "" /\ Args.rig_sensor args <> ""
  /\ Args.out_dir args <> "" /\ Args.undistorted_crop_win args <> "".
Proof.
  unfold sanity_checks.
  destruct (String.eqb_spec (Args.image_list args) ""); [discriminate|].
  destruct (String.eqb_spec (Args.mesh args) ""); [discriminate|].
  destruct (String.eqb_spec (Args.rig_config args) ""); [discriminate|].
  destruct (String.eqb_spec (Args.rig_sensor args) ""); [discriminate|].
  destruct (String.eqb_spec (Args.out_dir args) ""); [discriminate|].
  destruct (String.eqb_spec (Args.undistorted_crop_win args) ""); [discriminate|].
  intros _. repeat split; assumption.
Qed.

(** X3.  [sanity_checks] passes exactly when the image list, the mesh, the
    rig configuration, the rig sensor, the output directory and the crop
    window are all non-empty. *)
Theorem sanity_checks_ok_iff (args : Args.t) :
  sanity_checks args = Ok tt <->
  Args.image_list args <> "" /\ Args.mesh args <> ""
  /\ Args.rig_config args <> "" /\ Args.rig_sensor args <> ""
  /\ Args.out_dir args <> "" /\ Args.undistorted_crop_win args <> "".
Proof.
  split; [apply sanity_checks_ok_inv|].
  intros (H1 & H2 & H3 & H4 & H5 & H6). unfold sanity_checks.
  apply String.eqb_neq in H1, H2, H3, H4, H5, H6.
  rewrite H1, H2, H3, H4, H5, H6. reflexivity.
Qed.

Lemma sanity_checks_cases (args : Args.t) :
  sanity_checks args = Ok tt \/ exists msg, sanity_checks args = Raise (Exception msg).
Proof.
  unfold sanity_checks.
  repeat match goal with
  | |- context [String.eqb ?a ?b] =>
      destruct (String.eqb a b); [right; eexists; reflexivity|]
  end.
  left. reflexivity.
Qed.

(** X4.  With one of the six options empty the script stops at
    [sanity_checks] with that function's exception and the world is the one
    it started from: no directory is made, no file read or written, no
    program launched. *)
Theorem main_checks_options_first (args : Args.t) (script : string) (w : world) :
  Args.image_list args = "" \/ Args.mesh args = ""
  \/ Args.rig_config args = "" \/ Args.rig_sensor args = ""
  \/ Args.out_dir args = "" \/ Args.undistorted_crop_win args = "" ->
  exists msg,
    sanity_checks args = Raise (Exception msg)
    /\ main args script w = (Raise (Exception msg), w).
Proof.
  intros Hempty.
  destruct (sanity_checks_cases args) as [Hok | (msg & Hmsg)].
  - apply sanity_checks_ok_inv in Hok. tauto.
  - exists msg. split; [exact Hmsg|].
    unfold main, io_bind, io_lift. rewrite Hmsg. reflexivity.
Qed.

(** *** More on the manifest *)

Lemma rstrip_empty_iff (s : string) : PyStr.rstrip s = "" <-> all_space s = true.
Proof.
  induction s as [|c s IH]; [split; reflexivity|].
  simpl. destruct (PyStr.rstrip s) eqn:E.
  - rewrite (proj1 IH eq_refl), andb_true_r.
    destruct (PyStr.isspace c); split; reflexivity || discriminate.
  - split; [discriminate|]. intros H. apply andb_true_iff in H as [_ H].
    apply IH in H. discriminate H.
Qed.

Lemma clean_line_cons c (s : string) :
  Ascii.eqb c "#" = false -> Ascii.eqb c PyStr.nl_char = false ->
  exists t, clean_line (String c s) = PyStr.rstrip (String c t)
            /\ clean_line s = PyStr.rstrip t.
Proof.
  intros Hh Hn. unfold clean_line. simpl. rewrite Hh, Hn.
  destruct (PyStr.match_comment s) as [g|]; simpl; eexists; split; reflexivity.
Qed.

Lemma clean_line_empty_iff (line : string) :
  clean_line line = "" <-> blank_or_comment line = true.
Proof.
  induction line as [|c s IH]; [split; reflexivity|].
  simpl blank_or_comment.
  destruct (Ascii.eqb c "#") eqn:Hh.
  { unfold clean_line. simpl. rewrite Hh. split; reflexivity. }
  destruct (Ascii.eqb c PyStr.nl_char) eqn:Hn.
  { unfold clean_line. simpl PyStr.match_comment. rewrite Hh, Hn.
    apply Ascii.eqb_eq in Hn. subst c.
    rewrite rstrip_empty_iff. simpl. reflexivity. }
  destruct (clean_line_cons c s Hh Hn) as (t & -> & Ht).
  rewrite Ht in IH. simpl PyStr.rstrip. destruct (PyStr.rstrip t) eqn:E.
  - rewrite (proj1 IH eq_refl), andb_true_r.
    destruct (PyStr.isspace c); split; reflexivity || discriminate.
  - split; [discriminate|]. intros H. apply andb_true_iff in H as [_ H].
    apply IH in H. discriminate H.
Qed.

(** X5.  A manifest line of whitespace only, or of whitespace without a
    newline followed by [#], changes nothing: the loop gives the same
    result with the line and without it. *)
Theorem blank_and_comment_lines_ignored image_list rig_sensor l1 line l2 :
  blank_or_comment line = true ->
  parse_lines image_list rig_sensor (l1 ++ line :: l2)
  = parse_lines image_list rig_sensor (l1 ++ l2).
Proof.
  intros H. apply clean_line_empty_iff in H.
  unfold parse_lines. rewrite !for_each_app.
  destruct (for_each l1 _ _) as [acc|e]; simpl; [|reflexivity].
  rewrite parse_line_row, H. reflexivity.
Qed.

Lemma match_comment_absent (s : string) :
  contains_char "#" s = false -> PyStr.match_comment s = None.
Proof.
  induction s as [|c s IH]; [reflexivity|].
  simpl. intros H. apply orb_false_iff in H as [Hc Hs].
  rewrite Hc, (IH Hs). destruct (Ascii.eqb c PyStr.nl_char); reflexivity.
Qed.

Lemma match_comment_hash (s rest : string) :
  contains_char "#" s = false -> contains_char PyStr.nl_char s = false ->
  PyStr.match_comment (s +:+ String "#" rest) = Some s.
Proof.
  induction s as [|c s IH]; [reflexivity|].
  intros H1 H2. simpl in H1, H2.
  apply orb_false_iff in H1 as [Hc Hs]. apply orb_false_iff in H2 as [Hn Hs'].
  rewrite str_app_cons. simpl PyStr.match_comment.
  rewrite Hc, Hn, (IH Hs Hs'). reflexivity.
Qed.

(** X6.  A [#] and everything after it are dropped: a line [s # comment],
    with no [#] and no newline in [s], is treated as the line [s]. *)
Theorem trailing_comment_ignored image_list rig_sensor (s comment : string) acc :
  contains_char "#" s = false ->
  contains_char PyStr.nl_char s = false ->
  parse_line image_list rig_sensor (s +:+ "#" +:+ comment) acc
  = parse_line image_list rig_sensor s acc.
Proof.
  intros Hh Hn. rewrite !parse_line_row.
  assert (E : clean_line (s +:+ "#" +:+ comment) = clean_line s).
  { unfold clean_line. change ("#" +:+ comment) with (String "#" comment).
    rewrite (match_comment_hash s comment Hh Hn), (match_comment_absent s Hh).
    reflexivity. }
  rewrite E. reflexivity.
Qed.

(** X7.  Tokens after the thirteenth are never looked at: a line whose
    tokens extend those of a line with thirteen tokens or more is treated
    as that line. *)
Theorem extra_tokens_ignored image_list rig_sensor line line' row extra acc :
  PyStr.split (clean_line line) = row ->
  PyStr.split (clean_line line') = (row ++ extra)%list ->
  (13 <= length row)%nat ->
  parse_line image_list rig_sensor line' acc
  = parse_line image_list rig_sensor line acc.
Proof.
  intros Hrow Hrow' Hlen. rewrite !parse_line_row, Hrow, Hrow'.
  assert (Hne : forall l r, PyStr.split (clean_line l) = r -> (13 <= length r)%nat ->
                (String.length (clean_line l) =? 0)%nat = false).
  { intros l r Hr Hl. destruct (clean_line l); [subst r; simpl in Hl; lia|reflexivity]. }
  rewrite (Hne line row Hrow Hlen).
  rewrite (Hne line' (row ++ extra)%list Hrow')
    by (rewrite length_app; lia).
  unfold parse_row, row_short, row_matches, row_image, row_numeric.
  rewrite length_app.
  replace (length row + length extra <? 13)%nat with false
    by (symmetry; apply Nat.ltb_ge; lia).
  replace (length row <? 13)%nat with false by (symmetry; apply Nat.ltb_ge; lia).
  destruct row as [|image row]; [simpl in Hlen; lia|].
  simpl in Hlen. rewrite <- app_comm_cons. cbn [hd skipn].
  change (drop 0 (row ++ extra)) with (row ++ extra).
  change (drop 0 row) with row.
  rewrite (take_app_le row extra 12) by lia. reflexivity.
Qed.

(** X9.  For a non-empty sensor name every image the parser returns has a
    slash in its path: an image given without a directory has the empty
    sensor and is left out. *)
Theorem selected_images_have_directory
  image_list rig_sensor w w' images world_to_cam :
  rig_sensor <> "" ->
  parse_images_and_camera_poses image_list rig_sensor w
  = (Ok (images, world_to_cam), w') ->
  Forall (fun image => contains_char "/" image = true) images.
Proof.
  intros Hne Hrun.
  destruct (parse_images_ok_inv _ _ _ _ _ _ Hrun) as (text & _ & _ & _ & -> & _).
  eapply Forall_impl; [apply filter_matches_sensor|].
  intros image Hs. simpl in Hs.
  destruct (contains_char "/" image) eqn:E; [reflexivity|].
  rewrite (sensor_of_no_directory _ E) in Hs. congruence.
Qed.

(** X11.  The parser leaves the world as it was whatever the outcome; the
    normaliser never changes a file, and leaves the output as it was too
    unless it ends the run with exit status 1. *)
Theorem reading_leaves_files image_list rig_sensor undist_intrinsics w :
  snd (parse_images_and_camera_poses image_list rig_sensor w) = w
  /\ files (snd (convert_intrinsics_to_texrecon undist_intrinsics w)) = files w
  /\ (fst (convert_intrinsics_to_texrecon undist_intrinsics w)
      <> Raise (SystemExit 1) ->
      snd (convert_intrinsics_to_texrecon undist_intrinsics w) = w).
Proof.
  split; [|split].
  - rewrite parse_images_unfold. destruct (file_at w image_list); reflexivity.
  - rewrite convert_spec.
    destruct (file_at w undist_intrinsics) as [text|]; [|reflexivity].
    destruct (first_data_line _) as [line|]; [|reflexivity].
    unfold on_data_line. destruct (_ <? _)%nat; [reflexivity|].
    destruct (normalize _) as [k|e]; [|reflexivity].
    destruct (PrimFloat.leb _ _); reflexivity.
  - rewrite convert_spec.
    destruct (file_at w undist_intrinsics) as [text|]; [|reflexivity].
    destruct (first_data_line _) as [line|]; [|reflexivity].
    unfold on_data_line. destruct (_ <? _)%nat; [intros H; contradiction H; reflexivity|].
    destruct (normalize _) as [k|e]; [|reflexivity].
    destruct (PrimFloat.leb _ _); reflexivity.
Qed.

(** *** More on the camera files *)

(** An iteration, whatever its outcome, resolves names as before and
    touches no file but the one its camera path names. *)
Lemma write_camera_frame images poses k it w :
  realpath (snd (write_camera images poses k it w)) = realpath w
  /\ forall f,
       (forall image, images !! it = Some image ->
                      realpath w (cam_path image) <> f) ->
       files (snd (write_camera images poses k it w)) !! f = files w !! f.
Proof.
  unfold write_camera, getitem, io_bind, io_lift, print, open_w, write, file_at.
  destruct (images !! it) as [image|]; [|split; reflexivity]. simpl.
  destruct (writable w (files w) (cam_path image)); [|split; reflexivity].
  destruct (poses !! it) as [M|]; simpl;
    [|split; [reflexivity | intros f Hf; apply lookup_insert_ne, Hf; reflexivity]].
  destruct (translation_text M) as [t|]; simpl;
    [|split; [reflexivity | intros f Hf; apply lookup_insert_ne, Hf; reflexivity]].
  destruct (rotation_text M) as [r|]; simpl;
    (split; [reflexivity|]); intros f Hf;
    rewrite ?lookup_insert_ne by (apply Hf; reflexivity); reflexivity.
Qed.

Lemma run_frame images poses k its w :
  realpath (snd (io_for_each its (write_camera images poses k) w)) = realpath w
  /\ forall f,
       (forall it image, it ∈ its -> images !! it = Some image ->
                         realpath w (cam_path image) <> f) ->
       files (snd (io_for_each its (write_camera images poses k) w)) !! f
       = files w !! f.
Proof.
  revert w. induction its as [|it its IH]; intros w; [split; reflexivity|].
  rewrite io_for_each_cons.
  destruct (write_camera_frame images poses k it w) as (Hrp & Hframe).
  destruct (write_camera images poses k it w) as [[[]|e] w1]; simpl in Hrp, Hframe.
  - destruct (IH w1) as (Hrp1 & Hframe1). split; [congruence|].
    intros f Hf. rewrite Hframe1.
    + apply Hframe. intros image Hi. apply (Hf it image); [left | exact Hi].
    + intros it' image Hin Hi. rewrite Hrp. apply (Hf it' image); [right|]; assumption.
  - split; [exact Hrp|]. intros f Hf. apply Hframe.
    intros image Hi. apply (Hf it image); [left | exact Hi].
Qed.

(** X12.  Whatever the outcome of the writer, names resolve as before and
    a file that no camera path of the images names holds what it held; so a
    path reads as before unless it names the file of one of the camera
    paths, whether it is spelt like that camera path or not. *)
Theorem writer_touches_only_camera_files images poses k w :
  realpath (snd (create_texrecon_cameras images poses k w)) = realpath w
  /\ (forall f,
        (forall image, image ∈ images -> realpath w (cam_path image) <> f) ->
        files (snd (create_texrecon_cameras images poses k w)) !! f
        = files w !! f)
  /\ (forall p,
        (forall image, image ∈ images ->
                       realpath w (cam_path image) <> realpath w p) ->
        file_at (snd (create_texrecon_cameras images poses k w)) p
        = file_at w p).
Proof.
  assert (Hframe :
    realpath (snd (create_texrecon_cameras images poses k w)) = realpath w
    /\ forall f,
         (forall image, image ∈ images -> realpath w (cam_path image) <> f) ->
         files (snd (create_texrecon_cameras images poses k w)) !! f
         = files w !! f).
  { unfold create_texrecon_cameras.
    destruct (negb _); [split; reflexivity|].
    destruct (run_frame images poses k (seq 0 (length images)) w) as (Hrp & Hf).
    split; [exact Hrp|]. intros f Hne. apply Hf.
    intros it image _ Hit. apply Hne. eapply list_elem_of_lookup_2, Hit. }
  destruct Hframe as (Hrp & Hf).
  split; [exact Hrp|]. split; [exact Hf|].
  intros p Hne. unfold file_at. rewrite Hrp. apply Hf, Hne.
Qed.

(** X13.  After a successful run the camera file of the image at index
    [j] holds the pose at index [j] whenever no later image has a camera
    path that names the same file; when the camera paths name pairwise
    distinct files this is so for every image. *)
Theorem last_image_decides_camera_file images poses k w w' :
  create_texrecon_cameras images poses k w = (Ok tt, w') ->
  (forall j image M,
     images !! j = Some image ->
     poses !! j = Some M ->
     (forall j' image', (j < j')%nat -> images !! j' = Some image' ->
                        realpath w (cam_path image') <> realpath w (cam_path image)) ->
     file_at w' (cam_path image)
     = Some (extrinsics_line M +:+ PyStr.nl +:+ intrinsics_line k +:+ PyStr.nl))
  /\ (NoDup ((fun image => realpath w (cam_path image)) <$> images) ->
      forall j image M,
        images !! j = Some image ->
        poses !! j = Some M ->
        file_at w' (cam_path image)
        = Some (extrinsics_line M +:+ PyStr.nl +:+ intrinsics_line k +:+ PyStr.nl)).
Proof.
  intros Hrun. split.
  - intros j image M Hi Hp Hlater.
    exact (last_write_wins _ _ _ _ _ j image M Hrun Hi Hp Hlater).
  - intros Hnd j image M Hi Hp.
    apply (last_write_wins _ _ _ _ _ j image M Hrun Hi Hp).
    intros j' image' Hlt Hi' E.
    assert (j = j'); [|lia].
    apply (NoDup_lookup _ _ _ (realpath w (cam_path image)) Hnd);
      rewrite list_lookup_fmap;
      [rewrite Hi; reflexivity | rewrite Hi'; simpl; f_equal; exact E].
Qed.

Lemma all_dots_snoc (x : string) :
  all_dots x = true -> all_dots (x +:+ ".") = true.
Proof.
  induction x as [|c x IH]; [reflexivity|].
  rewrite str_app_cons. simpl. intros H.
  apply andb_true_iff in H as [-> H]. exact (IH H).
Qed.

(** [splitext] cuts the path at its extension. *)
Lemma splitext_spec (image : string) :
  exists root ext,
    splits_extension image root ext /\ PosixPath.splitext image = (root, ext).
Proof.
  assert (Hcases : exists pre b, image = pre +:+ b /\ dir_prefix pre
                                 /\ contains_char "/" b = false).
  { destruct (last_occurrence "/" image) as [H | (a & b & -> & H)].
    - exists "", image. split; [reflexivity|]. split; [left; reflexivity | exact H].
    - exists (a +:+ "/"), b. split; [str_norm; reflexivity|].
      split; [right; eexists; reflexivity | exact H]. }
  destruct Hcases as (pre & b & -> & Hpre & Hs).
  destruct (last_occurrence "." b) as [Hd | (x & y & -> & Hd)].
  - exists (pre +:+ b), "". split; [|apply splitext_no_dot; assumption].
    exists pre, b. split; [reflexivity|]. split; [exact Hpre|]. split; [exact Hs|].
    right. exists "", b. rewrite str_app_nil_l. auto.
  - pose proof Hs as Hs'. rewrite contains_char_app in Hs'.
    apply orb_false_iff in Hs' as [Hx Hy]. simpl in Hy.
    change (x +:+ String "." y) with (x +:+ "." +:+ y) in *.
    rewrite (splitext_dot pre x y Hpre Hx Hy Hd).
    destruct (all_dots x) eqn:Hdots.
    + exists (pre +:+ x +:+ "." +:+ y), "". split; [|reflexivity].
      exists pre, (x +:+ "." +:+ y).
      split; [reflexivity|]. split; [exact Hpre|]. split; [exact Hs|].
      right. exists (x +:+ "."), y. split; [str_norm; reflexivity|].
      split; [apply all_dots_snoc, Hdots|]. auto.
    + exists (pre +:+ x), ("." +:+ y). split; [|reflexivity].
      exists pre, (x +:+ "." +:+ y).
      split; [reflexivity|]. split; [exact Hpre|]. split; [exact Hs|].
      left. exists x, y. auto.
Qed.

(** C9.  Two runs with the same arguments that both complete, from worlds
    that resolve the camera paths alike, leave the same text in the camera
    file of every image, and the path of that file is the image path with
    its extension replaced by [.cam]; a run on the files that an earlier one
    left leaves every file as it is. *)
Theorem camera_files_deterministic images poses k w w1 v v1 :
  create_texrecon_cameras images poses k w = (Ok tt, w1) ->
  create_texrecon_cameras images poses k v = (Ok tt, v1) ->
  (forall image, image ∈ images ->
                 realpath v (cam_path image) = realpath w (cam_path image)) ->
  (forall image,
     image ∈ images ->
     exists root ext text,
       splits_extension image root ext
       /\ cam_path image = root +:+ ".cam"
       /\ file_at w1 (root +:+ ".cam") = Some text
       /\ file_at v1 (root +:+ ".cam") = Some text)
  /\ (files v = files w1 -> files v1 = files w1).
Proof.
  intros Hw Hv Hrp.
  destruct (create_ok_inv _ _ _ _ _ Hw) as (_ & Hall & Hrpw & Hfw).
  destruct (create_ok_inv _ _ _ _ _ Hv) as (_ & _ & Hrpv & Hfv).
  rewrite (written_ext (realpath w) (realpath v) _ _ _ _ _ Hrp) in Hfv.
  split.
  - intros image Hin.
    destruct (splitext_spec image) as (root & ext & Hsplit & Hext).
    assert (Hcam : cam_path image = root +:+ ".cam")
      by (unfold cam_path; rewrite Hext; reflexivity).
    destruct (written_image _ _ _ _ _ Hall Hin) as (it & s & _ & Hm).
    exists root, ext, s. split; [exact Hsplit|]. split; [exact Hcam|].
    rewrite <- Hcam. unfold file_at.
    rewrite Hrpw, Hrpv, Hfw, Hfv, (Hrp image Hin), !Hm. split; reflexivity.
  - intros E. rewrite Hfv, E, Hfw. apply written_idempotent.
Qed.

(** *** The stages together *)

Lemma io_bind_ok_inv {A B} (m : io A) (k : A -> io B) w r w' :
  io_bind m k w = (Ok r, w') ->
  exists a w1, m w = (Ok a, w1) /\ k a w1 = (Ok r, w').
Proof.
  unfold io_bind. destruct (m w) as [[a|e] w1]; [|discriminate].
  intros H. exists a, w1. split; [reflexivity | exact H].
Qed.

Lemma io_fold_collect {A} (path : string) (g f : A -> string) (l : list A) acc w :
  exists w',
    io_fold l
      (fun x acc => io_bind (write path (g x)) (fun _ => io_ret (acc ++ [f x])))
      acc w
    = (Ok (acc ++ map f l), w').
Proof.
  revert acc w. induction l as [|x l IH]; intros acc w.
  - exists w. simpl. rewrite app_nil_r. reflexivity.
  - simpl. unfold io_bind at 1. unfold io_bind at 1. simpl.
    destruct (IH (acc ++ [f x])
                (World (realpath w) (writable w)
                   (<[realpath w path := default "" (file_at w path) +:+ g x]>
                      (files w))
                   (stdout w))) as (w' & ->).
    exists w'. rewrite <- app_assoc. reflexivity.
Qed.

(** What [undistort_images] returns, whatever the system did. *)
Lemma undistort_images_ok_inv args images base_dir w r w' :
  undistort_images args images base_dir w = (Ok r, w') ->
  r = (Args.out_dir args +:+ "/" +:+ Args.rig_sensor args
       +:+ "/undistorted_images" +:+ "/undistorted_intrinsics.txt",
       map (undistorted_image
              (Args.out_dir args +:+ "/" +:+ Args.rig_sensor args
               +:+ "/undistorted_images")) images,
       Args.out_dir args +:+ "/" +:+ Args.rig_sensor args
       +:+ "/undistorted_images").
Proof.
  unfold undistort_images. intros H.
  do 3 (apply io_bind_ok_inv in H; destruct H as (? & ? & _ & H); cbv beta in H).
  apply io_bind_ok_inv in H. destruct H as (dist_images & w4 & Hd & H).
  cbv beta in H.
  do 4 (apply io_bind_ok_inv in H; destruct H as (? & ? & _ & H); cbv beta in H).
  apply io_bind_ok_inv in H. destruct H as (undistorted_images & w9 & Hu & H).
  cbv beta in H.
  do 2 (apply io_bind_ok_inv in H; destruct H as (? & ? & _ & H); cbv beta in H).
  unfold io_ret in H. injection H as <- _.
  match type of Hd with io_fold _ _ _ ?w0 = _ =>
    destruct (io_fold_collect
                (Args.out_dir args +:+ "/" +:+ Args.rig_sensor args
                 +:+ "/distorted_index.txt")
                (fun image => image +:+ PyStr.nl) (fun image => image)
                images [] w0) as (wa & Ea)
  end.
  assert (Ed : dist_images = images).
  { assert (E : (Ok dist_images, w4) = (Ok ([] ++ map (fun image => image) images), wa))
      by (rewrite <- Hd; exact Ea).
    injection E as -> _. simpl. apply map_id. }
  subst dist_images.
  match type of Hu with io_fold _ _ _ ?w0 = _ =>
    destruct (io_fold_collect
                (Args.out_dir args +:+ "/" +:+ Args.rig_sensor args
                 +:+ "/undistorted_index.txt")
                (fun image =>
                   undistorted_image
                     (Args.out_dir args +:+ "/" +:+ Args.rig_sensor args
                      +:+ "/undistorted_images") image +:+ PyStr.nl)
                (undistorted_image
                   (Args.out_dir args +:+ "/" +:+ Args.rig_sensor args
                    +:+ "/undistorted_images"))
                images [] w0) as (wb & Eb)
  end.
  assert (E : (Ok undistorted_images, w9)
              = (Ok ([] ++ map (undistorted_image
                                  (Args.out_dir args +:+ "/" +:+ Args.rig_sensor args
                                   +:+ "/undistorted_images")) images), wb))
    by (rewrite <- Hu; exact Eb).
  injection E as -> _. simpl. f_equal. f_equal. str_norm. reflexivity.
Qed.

Lemma lookup_map {A B} (f : A -> B) (l : list A) (j : nat) :
  map f l !! j = f <$> (l !! j).
Proof.
  revert j. induction l as [|x l IH]; intros [|j]; simpl; auto.
Qed.

(** X16.  Whenever [undistort_images] returns, whatever the system calls
    did, the directory is [out_dir/rig_sensor/undistorted_images], the
    intrinsics file is [undistorted_intrinsics.txt] in it, and there is one
    undistorted path per image, in the order of the images: for the image
    at index [j], the file [stem.jpg] of that directory. *)
Theorem undistort_images_paths args images base_dir w
  undist_intrinsics undistorted_images undist_dir w' :
  undistort_images args images base_dir w
  = (Ok (undist_intrinsics, undistorted_images, undist_dir), w') ->
  undist_dir = Args.out_dir args +:+ "/" +:+ Args.rig_sensor args
               +:+ "/undistorted_images"
  /\ undist_intrinsics = undist_dir +:+ "/undistorted_intrinsics.txt"
  /\ length undistorted_images = length images
  /\ forall j image,
       images !! j = Some image ->
       undistorted_images !! j
       = Some (undist_dir +:+ "/"
               +:+ fst (PosixPath.splitext (PosixPath.basename image))
               +:+ ".jpg").
Proof.
  intros H. apply undistort_images_ok_inv in H. injection H as -> -> ->.
  split; [reflexivity|]. split; [str_norm; reflexivity|].
  split; [apply length_map|].
  intros j image Hj. rewrite lookup_map, Hj. simpl. f_equal. apply undistorted_image_stem.
Qed.




(** X18.  Through parser, undistortion and writer, the [j]-th manifest row
    of the target sensor, with numbers [v0 .. v11], ends in the camera file
    of the undistorted copy of its image, whose first line is
    [v9 v10 v11 v0 .. v8] and whose second line holds the intrinsics,
    provided no later image has a camera path that names the same file. *)
Theorem manifest_row_to_camera_file
  args image_list rig_sensor base_dir text w0 w1 w2 w3 images world_to_cam
  undist_intrinsics undistorted_images undist_dir k w w' j row :
  file_at w0 image_list = Some text ->
  parse_images_and_camera_poses image_list rig_sensor w0
  = (Ok (images, world_to_cam), w1) ->
  undistort_images args images base_dir w2
  = (Ok (undist_intrinsics, undistorted_images, undist_dir), w3) ->
  create_texrecon_cameras undistorted_images world_to_cam k w = (Ok tt, w') ->
  List.filter (row_matches rig_sensor) (data_rows (PyStr.readlines text)) !! j
  = Some row ->
  (forall j' u u', (j < j')%nat ->
     undistorted_images !! j = Some u -> undistorted_images !! j' = Some u' ->
     realpath w (cam_path u') <> realpath w (cam_path u)) ->
  exists v,
    floats_of (row_numeric row) = Some v
    /\ undistorted_images !! j = Some (undistorted_image undist_dir (row_image row))
    /\ file_at w' (cam_path (undistorted_image undist_dir (row_image row)))
       = Some (fmt_fields
                 [nth 9 v 0; nth 10 v 0; nth 11 v 0;
                  nth 0 v 0; nth 1 v 0; nth 2 v 0;
                  nth 3 v 0; nth 4 v 0; nth 5 v 0;
                  nth 6 v 0; nth 7 v 0; nth 8 v 0]%float
               +:+ PyStr.nl +:+ intrinsics_line k +:+ PyStr.nl).
Proof.
  intros Hf Hparse Hund Hrun Hrow Hlater.
  destruct (parse_images_ok_inv _ _ _ _ _ _ Hparse)
    as (text' & Hf' & _ & _ & -> & HF).
  rewrite Hf in Hf'. injection Hf' as <-.
  apply undistort_images_ok_inv in Hund. injection Hund as _ -> ->.
  destruct (Forall2_lookup_r _ _ _ _ _ HF Hrow) as (M & HM & (v & Hv & ->)).
  assert (Hu : map (undistorted_image
                      (Args.out_dir args +:+ "/" +:+ Args.rig_sensor args
                       +:+ "/undistorted_images"))
                 (map row_image
                    (List.filter (row_matches rig_sensor)
                       (data_rows (PyStr.readlines text)))) !! j
               = Some (undistorted_image
                         (Args.out_dir args +:+ "/" +:+ Args.rig_sensor args
                          +:+ "/undistorted_images") (row_image row))).
  { rewrite !lookup_map, Hrow. reflexivity. }
  exists v. split; [exact Hv|]. split; [exact Hu|].
  rewrite (last_write_wins _ _ _ _ _ j _ _ Hrun Hu HM).
  - reflexivity.
  - intros j' image' Hlt Hj'. exact (Hlater j' _ image' Hlt Hu Hj').
Qed.

(** Every token of [split] is non-empty and free of whitespace. *)
Lemma split_tokens (s : string) :
  Forall (fun tok => tok <> "" /\ has_space tok = false) (PyStr.split s).
Proof.
  induction s as [|c s IH]; [constructor|].
  simpl PyStr.split. destruct (PyStr.isspace c) eqn:Hc; [exact IH|].
  assert (H1 : String c "" <> "" /\ has_space (String c "") = false).
  { split; [discriminate|]. simpl. rewrite Hc. reflexivity. }
  destruct s as [|c' s']; [constructor; [exact H1 | constructor]|].
  destruct (PyStr.isspace c') eqn:Hc'; [constructor; [exact H1 | exact IH]|].
  destruct (PyStr.split (String c' s')) as [|t ts];
    [constructor; [exact H1 | constructor]|].
  inversion IH as [|? ? [Ht1 Ht2] Hts]; subst.
  constructor; [|exact Hts].
  split; [discriminate|]. simpl. rewrite Hc, Ht2. reflexivity.
Qed.

(** X10.  Every image path the parser returns is a non-empty token
    without whitespace, so without a newline. *)
Theorem parsed_images_are_tokens
  image_list rig_sensor w w' images world_to_cam :
  parse_images_and_camera_poses image_list rig_sensor w
  = (Ok (images, world_to_cam), w') ->
  Forall (fun image => image <> "" /\ has_space image = false) images.
Proof.
  intros Hrun.
  destruct (parse_images_ok_inv _ _ _ _ _ _ Hrun) as (text & _ & _ & Hall & -> & _).
  assert (Hrows : Forall (fun row => Forall (fun tok => tok <> "" /\ has_space tok = false) row)
                    (data_rows (PyStr.readlines text))).
  { unfold data_rows. apply Forall_forall. intros row Hin.
    apply list_elem_of_In, in_map_iff in Hin as (l & <- & _). apply split_tokens. }
  clear Hrun.
  induction (data_rows (PyStr.readlines text)) as [|row rows IH]; [constructor|].
  simpl in Hall. apply andb_true_iff in Hall as [Hrow Hall].
  inversion Hrows as [|? ? Hr Hrs]; subst. simpl.
  destruct (row_matches rig_sensor row); [|exact (IH Hall Hrs)].
  simpl. constructor; [|exact (IH Hall Hrs)].
  unfold row_ok, row_short in Hrow. apply andb_true_iff in Hrow as [Hlen _].
  destruct row as [|image row]; [discriminate Hlen|].
  inversion Hr; subst. assumption.
Qed.

End Texrecon.

(** ** The properties on the example inputs *)

(** The file of the second image has two lines, the translation and the
    rotation together on the first: it is not a file of three lines. *)
Lemma camera_file_is_not_three_lines :
  exists w' text,
    create_texrecon_cameras PyRef.fmt17g Ex.images2 Ex.poses2 Ex.half
      Ex.empty_world = (Ok tt, w')
    /\ file_at w' "out/u/img1.cam" = Some text
    /\ PyStr.readlines text
       = [Ex.line "1 0 0 1 0 0 0 1 0 0 0 1"; Ex.line "0.5 0 0 1 0.5 0.5"]
    /\ length (PyStr.readlines text) <> 3%nat.
Proof.
  eexists _, _. split; [vm_compute; reflexivity|].
  split; [vm_compute; reflexivity|].
  split; [vm_compute; reflexivity | vm_compute; discriminate].
Qed.

(** The two-line layout on the same run. *)
Lemma camera_file_has_two_lines_witness :
  exists it image' M,
    Ex.images2 !! it = Some image'
    /\ realpath (snd (create_texrecon_cameras PyRef.fmt17g Ex.images2 Ex.poses2
                        Ex.half Ex.empty_world)) (cam_path image')
       = realpath (snd (create_texrecon_cameras PyRef.fmt17g Ex.images2 Ex.poses2
                          Ex.half Ex.empty_world)) (cam_path "out/u/img1.jpg")
    /\ (forall j image'', (it < j)%nat -> Ex.images2 !! j = Some image'' ->
          realpath (snd (create_texrecon_cameras PyRef.fmt17g Ex.images2
                           Ex.poses2 Ex.half Ex.empty_world)) (cam_path image'')
          <> realpath (snd (create_texrecon_cameras PyRef.fmt17g Ex.images2
                              Ex.poses2 Ex.half Ex.empty_world))
               (cam_path "out/u/img1.jpg"))
    /\ Ex.poses2 !! it = Some M
    /\ file_at (snd (create_texrecon_cameras PyRef.fmt17g Ex.images2 Ex.poses2
                       Ex.half Ex.empty_world)) (cam_path "out/u/img1.jpg")
       = Some (extrinsics_line PyRef.fmt17g M +:+ PyStr.nl
               +:+ intrinsics_line PyRef.fmt17g Ex.half +:+ PyStr.nl)
    /\ (has_nl (extrinsics_line PyRef.fmt17g M) = false ->
        has_nl (intrinsics_line PyRef.fmt17g Ex.half) = false ->
        PyStr.readlines (extrinsics_line PyRef.fmt17g M +:+ PyStr.nl
                         +:+ intrinsics_line PyRef.fmt17g Ex.half +:+ PyStr.nl)
        = [extrinsics_line PyRef.fmt17g M +:+ PyStr.nl;
           intrinsics_line PyRef.fmt17g Ex.half +:+ PyStr.nl]).
Proof.
  apply (camera_file_has_two_lines PyRef.fmt17g Ex.images2 Ex.poses2 Ex.half
           Ex.empty_world).
  - vm_compute. reflexivity.
  - apply list_elem_of_lookup. exists 1%nat. reflexivity.
Defined.

(** The record [1200 1000 900 600 500] gives focal 0.75 and principal
    point (0.5, 0.5). *)
Lemma normalized_intrinsics_example :
  convert_intrinsics_to_texrecon PyRef.to_float "u/intr.txt"
    (Ex.world_of "u/intr.txt" Ex.intr_1200)
  = (Ok (Intrinsics 0.75 0 0 1 0.5 0.5), Ex.world_of "u/intr.txt" Ex.intr_1200)
  /\ exists text line widx widy f cx cy,
       file_at (Ex.world_of "u/intr.txt" Ex.intr_1200) "u/intr.txt" = Some text
       /\ first_data_line (PyStr.readlines text) = Some line
       /\ line_values PyRef.to_float line widx widy f cx cy
       /\ PrimFloat.eqb widx 0 = false
       /\ PrimFloat.eqb widy 0 = false
       /\ PrimFloat.leb (f / py_max widx widy) 0 = false
       /\ Intrinsics 0.75 0 0 1 0.5 0.5
          = Intrinsics (f / py_max widx widy) 0 0 1 (cx / widx) (cy / widy)
       /\ Ex.world_of "u/intr.txt" Ex.intr_1200
          = Ex.world_of "u/intr.txt" Ex.intr_1200.
Proof.
  split; [vm_compute; reflexivity|].
  apply (proj1 (normalized_intrinsics_formula PyRef.to_float "u/intr.txt"
                  (Ex.world_of "u/intr.txt" Ex.intr_1200)
                  (Ex.world_of "u/intr.txt" Ex.intr_1200)
                  (Intrinsics 0.75 0 0 1 0.5 0.5))).
  vm_compute. reflexivity.
Defined.

(** Three images, two poses: the error, and no file. *)
Lemma count_mismatch_example :
  exists e,
    create_texrecon_cameras PyRef.fmt17g Ex.images3 Ex.poses2 Ex.half
      Ex.empty_world = (Raise e, Ex.empty_world)
    /\ is_CountMismatchError e = true.
Proof.
  apply (count_mismatch_writes_nothing PyRef.fmt17g Ex.images3 Ex.poses2
           Ex.half Ex.empty_world).
  vm_compute. discriminate.
Defined.

(** Every row of [cam1] has its thirteen tokens and its twelve numbers,
    yet the run for [cam1] fails on the three-token line of [cam2]. *)
Lemma short_line_of_other_sensor_aborts :
  forallb (fun row => negb (row_matches "cam1" row)
                      || (negb (row_short row)
                          && row_numbers_ok PyRef.to_float row))
    (data_rows (PyStr.readlines Ex.manifest_short_other)) = true
  /\ parse_images_and_camera_poses PyRef.to_float "list.txt" "cam1"
       (Ex.world_of "list.txt" Ex.manifest_short_other)
     = (Raise (Exception "Could not parse: list.txt"),
        Ex.world_of "list.txt" Ex.manifest_short_other).
Proof. split; vm_compute; reflexivity. Qed.

(** The manifest with a comment, a blank line and a row of [cam2] parses. *)
Lemma parse_outcome_example :
  exists images world_to_cam,
    parse_images_and_camera_poses PyRef.to_float "list.txt" "cam1"
      (Ex.world_of "list.txt" Ex.manifest)
    = (Ok (images, world_to_cam), Ex.world_of "list.txt" Ex.manifest)
    /\ length images
       = length (List.filter (row_matches "cam1")
                   (data_rows (PyStr.readlines Ex.manifest)))
    /\ length world_to_cam = length images.
Proof.
  exact (parse_outcome PyRef.to_float "list.txt" "cam1"
           (Ex.world_of "list.txt" Ex.manifest) Ex.manifest eq_refl).
Defined.

(** A five-token record with a positive normalised focal length and a zero
    height fails on the division for [ncy]; a focal length that is not a
    number is not caught by the [nf <= 0] test. *)
Lemma positive_focal_zero_height_fails :
  (first_data_line (PyStr.readlines Ex.intr_zero_height)
   = Some (Ex.line "100 0 50 50 50")
   /\ length (PyStr.split (Ex.line "100 0 50 50 50")) = 5%nat
   /\ PrimFloat.ltb 0 (50 / py_max 100 0) = true
   /\ fst (convert_intrinsics_to_texrecon PyRef.to_float "u/intr.txt"
             (Ex.world_of "u/intr.txt" Ex.intr_zero_height))
      = Raise ZeroDivisionError)
  /\ (PrimFloat.ltb 0 (nan / py_max 100 100) = false
      /\ fst (convert_intrinsics_to_texrecon PyRef.to_float "u/intr.txt"
                (Ex.world_of "u/intr.txt" Ex.intr_nan))
         = Ok (Intrinsics nan 0 0 1 0.5 0.5)).
Proof. repeat split; vm_compute; reflexivity. Qed.

(** The record [100 100 50 50 50] is accepted. *)
Lemma convert_outcome_example :
  convert_intrinsics_to_texrecon PyRef.to_float "u/intr.txt"
    (Ex.world_of "u/intr.txt" Ex.intr_100)
  = (Ok (Intrinsics 0.5 0 0 1 0.5 0.5), Ex.world_of "u/intr.txt" Ex.intr_100).
Proof.
  refine (proj2 (proj2 (proj2 (proj2 (convert_outcome PyRef.to_float
            "u/intr.txt" (Ex.world_of "u/intr.txt" Ex.intr_100)))
            Ex.intr_100 (Ex.line "100 100 50 50 50") 100 100 50 50 50
            _ _ _)) _ _ _)%float.
  - reflexivity.
  - vm_compute. reflexivity.
  - exists "100", "100", "50", "50", "50", []. vm_compute. repeat split.
  - vm_compute. reflexivity.
  - vm_compute. reflexivity.
  - vm_compute. reflexivity.
Defined.

(** A zero width with a negative focal length: the normalised focal length
    is [-0.5], and the run ends on the division for [ncx], not with a
    [ParseError]. *)
Example negative_focal_zero_width_fails :
  PrimFloat.leb (-50 / py_max 0 100) 0 = true
  /\ convert_intrinsics_to_texrecon PyRef.to_float "u/intr.txt"
       (Ex.world_of "u/intr.txt" (Ex.line "0 100 -50 50 50"))
     = (Raise ZeroDivisionError,
        Ex.world_of "u/intr.txt" (Ex.line "0 100 -50 50 50"))
  /\ is_ParseError ZeroDivisionError = false.
Proof.
  split; [vm_compute; reflexivity|].
  split; [vm_compute; reflexivity|].
  vm_compute; reflexivity.
Qed.

(** A three-token line before a valid record: the run exits with status 1
    instead of reaching the record. *)
Lemma short_first_line_exits :
  PyStr.readlines Ex.intr_short_first
  = [Ex.line "1 2 3"; Ex.line "100 100 50 50 50"]
  /\ normalize PyRef.to_float (PyStr.split (Ex.line "100 100 50 50 50"))
     = Ok (Intrinsics 0.5 0 0 1 0.5 0.5)
  /\ convert_intrinsics_to_texrecon PyRef.to_float "u/intr.txt"
       (Ex.world_of "u/intr.txt" Ex.intr_short_first)
     = (Raise (SystemExit 1),
        exit_world "u/intr.txt" (Ex.world_of "u/intr.txt" Ex.intr_short_first)).
Proof. repeat split; vm_compute; reflexivity. Qed.

(** The record after a comment is used; the stray text after it is not read. *)
Lemma first_data_line_decides_example :
  convert_intrinsics_to_texrecon PyRef.to_float "u/intr.txt"
    (Ex.world_of "u/intr.txt" Ex.intr_1200)
  = (Ok (Intrinsics 0.75 0 0 1 0.5 0.5), Ex.world_of "u/intr.txt" Ex.intr_1200).
Proof.
  refine (eq_trans
    (first_data_line_decides PyRef.to_float "u/intr.txt"
       (Ex.world_of "u/intr.txt" Ex.intr_1200) Ex.intr_1200
       [Ex.line "# width height focal cx cy"]
       (Ex.line "1200 1000 900 600 500") [Ex.line "stray text"] _ _ _ _) _).
  - reflexivity.
  - vm_compute. reflexivity.
  - repeat constructor.
  - reflexivity.
  - vm_compute. reflexivity.
Defined.

(** Of the three rows of the manifest the two of [cam1] are kept, in order. *)
Lemma parse_keeps_exactly_target_sensor_example :
  exists text,
    file_at (Ex.world_of "list.txt" Ex.manifest) "list.txt" = Some text
    /\ forallb (row_ok PyRef.to_float "cam1") (data_rows (PyStr.readlines text))
       = true
    /\ ["data/cam1/img0.jpg"; "data/cam1/img1.jpg"]
       = map row_image
           (List.filter (row_matches "cam1") (data_rows (PyStr.readlines text)))
    /\ Forall2 (row_pose PyRef.to_float)
         [pose_layout [1; 0; 0; 0; 1; 0; 0; 0; 1; 0; 0; 0]%float;
          pose_layout [1; 0; 0; 0; 1; 0; 0; 0; 1; 1; 0; 0]%float]
         (List.filter (row_matches "cam1") (data_rows (PyStr.readlines text)))
    /\ Forall (fun image => sensor_of image = "cam1")
         ["data/cam1/img0.jpg"; "data/cam1/img1.jpg"]
    /\ Ex.world_of "list.txt" Ex.manifest = Ex.world_of "list.txt" Ex.manifest.
Proof.
  apply (proj1 (parse_keeps_exactly_target_sensor PyRef.to_float "list.txt"
                  "cam1" (Ex.world_of "list.txt" Ex.manifest)
                  (Ex.world_of "list.txt" Ex.manifest)
                  ["data/cam1/img0.jpg"; "data/cam1/img1.jpg"]
                  [pose_layout [1; 0; 0; 0; 1; 0; 0; 0; 1; 0; 0; 0]%float;
                   pose_layout [1; 0; 0; 0; 1; 0; 0; 0; 1; 1; 0; 0]%float])).
  vm_compute. reflexivity.
Defined.

(** The pose of [data/cam1/img1.jpg] as the parser returns it. *)
Lemma parsed_pose_last_row_example :
  (exists v, [ [1; 0; 0; 1]; [0; 1; 0; 0]; [0; 0; 1; 0]; [1; 1; 1; 1] ]%float
             = pose_layout v)
  /\ [ [1; 0; 0; 1]; [0; 1; 0; 0]; [0; 0; 1; 0]; [1; 1; 1; 1] ]%float !! 3%nat
     = Some [1; 1; 1; 1]%float
  /\ [ [1; 0; 0; 1]; [0; 1; 0; 0]; [0; 0; 1; 0]; [1; 1; 1; 1] ]%float !! 3%nat
     <> Some [0; 0; 0; 1]%float.
Proof.
  apply (parsed_pose_last_row_is_ones PyRef.to_float "list.txt" "cam1"
           (Ex.world_of "list.txt" Ex.manifest)
           (Ex.world_of "list.txt" Ex.manifest)
           ["data/cam1/img0.jpg"; "data/cam1/img1.jpg"]
           [pose_layout [1; 0; 0; 0; 1; 0; 0; 0; 1; 0; 0; 0]%float;
            pose_layout [1; 0; 0; 0; 1; 0; 0; 0; 1; 1; 0; 0]%float]).
  - vm_compute. reflexivity.
  - apply list_elem_of_lookup. exists 1%nat. reflexivity.
Defined.

(** The run from a world with a stale camera file against the run from the
    empty world. *)
Lemma camera_files_deterministic_example :
  (forall image,
     image ∈ Ex.images2 ->
     exists root ext text,
       splits_extension image root ext
       /\ cam_path image = root +:+ ".cam"
       /\ file_at (snd (create_texrecon_cameras PyRef.fmt17g Ex.images2
                          Ex.poses2 Ex.half Ex.empty_world)) (root +:+ ".cam")
          = Some text
       /\ file_at (snd (create_texrecon_cameras PyRef.fmt17g Ex.images2
                          Ex.poses2 Ex.half
                          (Ex.plain {[ "out/u/img0.cam" := "stale" ]})))
            (root +:+ ".cam")
          = Some text)
  /\ (files (Ex.plain {[ "out/u/img0.cam" := "stale" ]})
      = files (snd (create_texrecon_cameras PyRef.fmt17g Ex.images2
                      Ex.poses2 Ex.half Ex.empty_world)) ->
      files (snd (create_texrecon_cameras PyRef.fmt17g Ex.images2
                    Ex.poses2 Ex.half
                    (Ex.plain {[ "out/u/img0.cam" := "stale" ]})))
      = files (snd (create_texrecon_cameras PyRef.fmt17g Ex.images2
                      Ex.poses2 Ex.half Ex.empty_world))).
Proof.
  apply (camera_files_deterministic PyRef.fmt17g Ex.images2 Ex.poses2 Ex.half
           Ex.empty_world
           (snd (create_texrecon_cameras PyRef.fmt17g Ex.images2 Ex.poses2
                   Ex.half Ex.empty_world))
           (Ex.plain {[ "out/u/img0.cam" := "stale" ]})
           (snd (create_texrecon_cameras PyRef.fmt17g Ex.images2 Ex.poses2
                   Ex.half (Ex.plain {[ "out/u/img0.cam" := "stale" ]})))).
  - vm_compute. reflexivity.
  - vm_compute. reflexivity.
  - intros image _. reflexivity.
Defined.

(** The two camera files of that run, and their paths. *)
Example camera_paths_of_images :
  cam_path "out/u/img0.jpg" = "out/u/img0.cam"
  /\ cam_path "out/u/img1.jpg" = "out/u/img1.cam"
  /\ map_to_list
       (files (snd (create_texrecon_cameras PyRef.fmt17g Ex.images2 Ex.poses2
                      Ex.half (Ex.plain {[ "out/u/img0.cam" := "stale" ]}))))
     = map_to_list
         (files (snd (create_texrecon_cameras PyRef.fmt17g Ex.images2 Ex.poses2
                        Ex.half Ex.empty_world))).
Proof.
  split; [vm_compute; reflexivity|].
  split; [vm_compute; reflexivity|].
  vm_compute; reflexivity.
Qed.

(** A thirteen-token line of [cam2] whose numbers are letters is skipped. *)
Lemma junk_line_of_other_sensor_is_skipped :
  parse_lines PyRef.to_float "list.txt" "cam1"
    ([Ex.line "data/cam1/img0.jpg 1 0 0 0 1 0 0 0 1 0 0 0"]
     ++ Ex.line "data/cam2/img0.jpg a b c d e f g h i j k l" :: [])
  = parse_lines PyRef.to_float "list.txt" "cam1"
      ([Ex.line "data/cam1/img0.jpg 1 0 0 0 1 0 0 0 1 0 0 0"] ++ []).
Proof.
  refine (short_check_precedes_sensor_filter PyRef.to_float "list.txt" "cam1"
            [Ex.line "data/cam1/img0.jpg 1 0 0 0 1 0 0 0 1 0 0 0"]
            (Ex.line "data/cam2/img0.jpg a b c d e f g h i j k l") [] _ _).
  - vm_compute. discriminate.
  - vm_compute. reflexivity.
Defined.

(** The same check on a three-token line of the other sensor. *)
Example short_line_of_other_sensor_raises :
  parse_lines PyRef.to_float "list.txt" "cam1"
    (PyStr.readlines Ex.manifest_short_other)
  = Raise (could_not_parse "list.txt").
Proof. vm_compute. reflexivity. Qed.

(** The end-to-end example: two images of [cam1], intrinsics
    [100 100 50 50 50]. *)
Example end_to_end :
  exists w1 world_to_cam k w2 w3,
    parse_images_and_camera_poses PyRef.to_float "list.txt" "cam1"
      (Ex.plain {[ "list.txt" := Ex.manifest; "u/intr.txt" := Ex.intr_100 ]})
    = (Ok (["data/cam1/img0.jpg"; "data/cam1/img1.jpg"], world_to_cam), w1)
    /\ convert_intrinsics_to_texrecon PyRef.to_float "u/intr.txt" w1
       = (Ok k, w2)
    /\ create_texrecon_cameras PyRef.fmt17g
         ["u/img0.jpg"; "u/img1.jpg"] world_to_cam k w2 = (Ok tt, w3)
    /\ file_at w3 "u/img0.cam"
       = Some (Ex.line "0 0 0 1 0 0 0 1 0 0 0 1" +:+ Ex.line "0.5 0 0 1 0.5 0.5")
    /\ file_at w3 "u/img1.cam"
       = Some (Ex.line "1 0 0 1 0 0 0 1 0 0 0 1" +:+ Ex.line "0.5 0 0 1 0.5 0.5").
Proof.
  eexists _, _, _, _, _.
  split; [vm_compute; reflexivity|].
  split; [vm_compute; reflexivity|].
  split; [vm_compute; reflexivity|].
  split; vm_compute; reflexivity.
Qed.

(** ** The further properties on example inputs *)

(** The command of the texturing step, none of whose arguments has a
    blank. *)
Lemma format_cmd_split_example :
  PyStr.split (format_cmd ["/opt/rig/bin/texrecon"; "-o"; "gauss_clamping"])
  = ["/opt/rig/bin/texrecon"; "-o"; "gauss_clamping"].
Proof.
  apply format_cmd_split. repeat constructor; discriminate.
Defined.

(** No mesh given: nothing is run. *)
Lemma main_checks_options_first_example :
  exists msg,
    sanity_checks (Args.Make "rig/config.txt" "cam1" "list.txt" "" "out" "1100 776")
    = Raise (Exception msg)
    /\ main PyRef.to_float PyRef.fmt17g ExRun.makedirs ExRun.isdir ExRun.rmtree
         ExRun.popen
         (Args.Make "rig/config.txt" "cam1" "list.txt" "" "out" "1100 776")
         "/opt/rig/bin/texrecon.py" ExRun.start
       = (Raise (Exception msg), ExRun.start).
Proof.
  apply (main_checks_options_first PyRef.to_float PyRef.fmt17g ExRun.makedirs
           ExRun.isdir ExRun.rmtree ExRun.popen).
  right. left. reflexivity.
Defined.

(** An indented comment between two rows. *)
Lemma blank_and_comment_lines_ignored_example :
  parse_lines PyRef.to_float "list.txt" "cam1"
    ([Ex.line "data/cam1/img0.jpg 1 0 0 0 1 0 0 0 1 0 0 0"]
     ++ Ex.line "   # second pass" ::
        [Ex.line "data/cam1/img1.jpg 1 0 0 0 1 0 0 0 1 1 0 0"])
  = parse_lines PyRef.to_float "list.txt" "cam1"
      ([Ex.line "data/cam1/img0.jpg 1 0 0 0 1 0 0 0 1 0 0 0"]
       ++ [Ex.line "data/cam1/img1.jpg 1 0 0 0 1 0 0 0 1 1 0 0"]).
Proof.
  apply blank_and_comment_lines_ignored. reflexivity.
Defined.

(** A row with a remark after its numbers. *)
Lemma trailing_comment_ignored_example :
  parse_line PyRef.to_float "list.txt" "cam1"
    ("data/cam1/img0.jpg 1 0 0 0 1 0 0 0 1 0 0 0 " +:+ "#" +:+ Ex.line " first")
    ([], [])
  = parse_line PyRef.to_float "list.txt" "cam1"
      "data/cam1/img0.jpg 1 0 0 0 1 0 0 0 1 0 0 0 " ([], []).
Proof.
  apply trailing_comment_ignored; reflexivity.
Defined.

(** A row with a fourteenth and a fifteenth token. *)
Lemma extra_tokens_ignored_example :
  parse_line PyRef.to_float "list.txt" "cam1"
    "data/cam1/img0.jpg 1 0 0 0 1 0 0 0 1 0 0 0 7.5 stamp" ([], [])
  = parse_line PyRef.to_float "list.txt" "cam1"
      "data/cam1/img0.jpg 1 0 0 0 1 0 0 0 1 0 0 0" ([], []).
Proof.
  apply (extra_tokens_ignored PyRef.to_float "list.txt" "cam1"
           "data/cam1/img0.jpg 1 0 0 0 1 0 0 0 1 0 0 0"
           "data/cam1/img0.jpg 1 0 0 0 1 0 0 0 1 0 0 0 7.5 stamp"
           ["data/cam1/img0.jpg"; "1"; "0"; "0"; "0"; "1"; "0"; "0"; "0"; "1";
            "0"; "0"; "0"]
           ["7.5"; "stamp"]).
  - reflexivity.
  - reflexivity.
  - simpl. lia.
Defined.

(** The sensor of [data/cam1//img0.jpg] is [cam1]. *)
Lemma sensor_of_parent_directory_example :
  sensor_of ("data/" +:+ "cam1" +:+ PyStr.repeat_char "/" 2 +:+ "img0.jpg") = "cam1".
Proof.
  apply sensor_of_parent_directory.
  - right. exists "data". reflexivity.
  - discriminate.
  - reflexivity.
  - reflexivity.
Defined.

(** The two images kept from the manifest lie in a directory. *)
Lemma selected_images_have_directory_example :
  Forall (fun image => contains_char "/" image = true) ExRun.images.
Proof.
  apply (selected_images_have_directory PyRef.to_float "list.txt" "cam1"
           ExRun.start ExRun.start ExRun.images ExRun.poses).
  - discriminate.
  - vm_compute. reflexivity.
Defined.

(** ... and are tokens. *)
Lemma parsed_images_are_tokens_example :
  Forall (fun image => image <> "" /\ has_space image = false) ExRun.images.
Proof.
  apply (parsed_images_are_tokens PyRef.to_float "list.txt" "cam1"
           ExRun.start ExRun.start ExRun.images ExRun.poses).
  vm_compute. reflexivity.
Defined.

(** Two spellings of one image, in a file system that reads [//] as [/]:
    the camera paths differ and name one file, which keeps the second
    pose. *)
Lemma last_image_decides_camera_file_example :
  (forall j image M,
     ["u/a.jpg"; "u//a.jpg"] !! j = Some image ->
     ExRun.poses !! j = Some M ->
     (forall j' image', (j < j')%nat ->
        ["u/a.jpg"; "u//a.jpg"] !! j' = Some image' ->
        Ex.squeeze (cam_path image') <> Ex.squeeze (cam_path image)) ->
     file_at (snd (create_texrecon_cameras PyRef.fmt17g ["u/a.jpg"; "u//a.jpg"]
                     ExRun.poses Ex.half (Ex.squeezing ∅))) (cam_path image)
     = Some (extrinsics_line PyRef.fmt17g M +:+ PyStr.nl
             +:+ intrinsics_line PyRef.fmt17g Ex.half +:+ PyStr.nl))
  /\ (NoDup ((fun image => Ex.squeeze (cam_path image))
               <$> ["u/a.jpg"; "u//a.jpg"]) ->
      forall j image M,
        ["u/a.jpg"; "u//a.jpg"] !! j = Some image ->
        ExRun.poses !! j = Some M ->
        file_at (snd (create_texrecon_cameras PyRef.fmt17g
                        ["u/a.jpg"; "u//a.jpg"] ExRun.poses Ex.half
                        (Ex.squeezing ∅))) (cam_path image)
        = Some (extrinsics_line PyRef.fmt17g M +:+ PyStr.nl
                +:+ intrinsics_line PyRef.fmt17g Ex.half +:+ PyStr.nl)).
Proof.
  apply (last_image_decides_camera_file PyRef.fmt17g ["u/a.jpg"; "u//a.jpg"]
           ExRun.poses Ex.half (Ex.squeezing ∅)).
  vm_compute. reflexivity.
Defined.

(** The same run read off: the camera paths [u/a.cam] and [u//a.cam], one
    file, with the translation [1 0 0] of the second pose; and the path
    [u///a.cam], the camera path of no image, reads differently after the
    run. *)
Example two_spellings_one_camera_file :
  map cam_path ["u/a.jpg"; "u//a.jpg"] = ["u/a.cam"; "u//a.cam"]
  /\ map_to_list
       (files (snd (create_texrecon_cameras PyRef.fmt17g ["u/a.jpg"; "u//a.jpg"]
                      ExRun.poses Ex.half (Ex.squeezing ∅))))
     = [("u/a.cam",
         Ex.line "1 0 0 1 0 0 0 1 0 0 0 1" +:+ Ex.line "0.5 0 0 1 0.5 0.5")]
  /\ file_at (Ex.squeezing ∅) "u///a.cam" = None
  /\ file_at (snd (create_texrecon_cameras PyRef.fmt17g ["u/a.jpg"; "u//a.jpg"]
                     ExRun.poses Ex.half (Ex.squeezing ∅))) "u///a.cam"
     = Some (Ex.line "1 0 0 1 0 0 0 1 0 0 0 1" +:+ Ex.line "0.5 0 0 1 0.5 0.5").
Proof.
  split; [vm_compute; reflexivity|].
  split; [vm_compute; reflexivity|].
  split; [vm_compute; reflexivity|].
  vm_compute; reflexivity.
Qed.

(** Two images whose camera paths are the same: again one file. *)
Example colliding_camera_paths :
  map_to_list
    (files (snd (create_texrecon_cameras PyRef.fmt17g ["a/img.jpg"; "a/img.png"]
                   ExRun.poses Ex.half Ex.empty_world)))
  = [("a/img.cam",
      Ex.line "1 0 0 1 0 0 0 1 0 0 0 1" +:+ Ex.line "0.5 0 0 1 0.5 0.5")].
Proof. vm_compute. reflexivity. Qed.

(** Where no file may be written the writer stops at the first camera
    file, after announcing it, and leaves no file. *)
Example refused_open_stops_writer :
  create_texrecon_cameras PyRef.fmt17g Ex.images2 Ex.poses2 Ex.half
    (Ex.read_only ∅)
  = (Raise (OSError "out/u/img0.cam"),
     World (fun p => p) (fun _ _ => false) ∅ ["Writing: out/u/img0.cam"]).
Proof. vm_compute. reflexivity. Qed.

(** The undistortion step on the two images of [cam1]. *)
Lemma undistort_images_paths_example :
  ExRun.undist_dir = Args.out_dir ExRun.args +:+ "/" +:+ Args.rig_sensor ExRun.args
                     +:+ "/undistorted_images"
  /\ "out/cam1/undistorted_images/undistorted_intrinsics.txt"
     = ExRun.undist_dir +:+ "/undistorted_intrinsics.txt"
  /\ length ExRun.undistorted = length ExRun.images
  /\ forall j image,
       ExRun.images !! j = Some image ->
       ExRun.undistorted !! j
       = Some (ExRun.undist_dir +:+ "/"
               +:+ fst (PosixPath.splitext (PosixPath.basename image))
               +:+ ".jpg").
Proof.
  apply (undistort_images_paths ExRun.makedirs ExRun.isdir ExRun.rmtree
           ExRun.popen ExRun.args ExRun.images "/opt/rig" ExRun.start
           "out/cam1/undistorted_images/undistorted_intrinsics.txt"
           ExRun.undistorted ExRun.undist_dir
           (snd (undistort_images ExRun.makedirs ExRun.isdir ExRun.rmtree
                   ExRun.popen ExRun.args ExRun.images "/opt/rig" ExRun.start))).
  vm_compute. reflexivity.
Defined.


(** The second row of [cam1], [1 0 0 0 1 0 0 0 1 1 0 0], in its camera file. *)
Lemma manifest_row_to_camera_file_example :
  exists v,
    floats_of PyRef.to_float
      (row_numeric
         ["data/cam1/img1.jpg"; "1"; "0"; "0"; "0"; "1"; "0"; "0"; "0"; "1";
          "1"; "0"; "0"]) = Some v
    /\ ExRun.undistorted !! 1%nat
       = Some (undistorted_image ExRun.undist_dir
                 (row_image
                    ["data/cam1/img1.jpg"; "1"; "0"; "0"; "0"; "1"; "0"; "0";
                     "0"; "1"; "1"; "0"; "0"]))
    /\ file_at (snd (create_texrecon_cameras PyRef.fmt17g ExRun.undistorted
                       ExRun.poses Ex.half Ex.empty_world))
         (cam_path (undistorted_image ExRun.undist_dir
                      (row_image
                         ["data/cam1/img1.jpg"; "1"; "0"; "0"; "0"; "1"; "0";
                          "0"; "0"; "1"; "1"; "0"; "0"])))
       = Some (fmt_fields PyRef.fmt17g
                 [nth 9 v 0; nth 10 v 0; nth 11 v 0;
                  nth 0 v 0; nth 1 v 0; nth 2 v 0;
                  nth 3 v 0; nth 4 v 0; nth 5 v 0;
                  nth 6 v 0; nth 7 v 0; nth 8 v 0]%float
               +:+ PyStr.nl +:+ intrinsics_line PyRef.fmt17g Ex.half
               +:+ PyStr.nl).
Proof.
  apply (manifest_row_to_camera_file PyRef.to_float PyRef.fmt17g
           ExRun.makedirs ExRun.isdir ExRun.rmtree ExRun.popen
           ExRun.args "list.txt" "cam1" "/opt/rig" Ex.manifest
           ExRun.start ExRun.start ExRun.start
           (snd (undistort_images ExRun.makedirs ExRun.isdir ExRun.rmtree
                   ExRun.popen ExRun.args ExRun.images "/opt/rig" ExRun.start))
           ExRun.images ExRun.poses
           "out/cam1/undistorted_images/undistorted_intrinsics.txt"
           ExRun.undistorted ExRun.undist_dir Ex.half Ex.empty_world
           (snd (create_texrecon_cameras PyRef.fmt17g ExRun.undistorted
                   ExRun.poses Ex.half Ex.empty_world))
           1%nat).
  - reflexivity.
  - vm_compute. reflexivity.
  - vm_compute. reflexivity.
  - vm_compute. reflexivity.
  - vm_compute. reflexivity.
  - intros j' u u' Hlt Hu Hu'.
    destruct j' as [|[|[|j']]]; try lia; discriminate Hu'.
Defined.

(** What that file holds. *)
Example pipeline_camera_file_text :
  file_at (snd (create_texrecon_cameras PyRef.fmt17g ExRun.undistorted
                  ExRun.poses Ex.half Ex.empty_world))
    "out/cam1/undistorted_images/img1.cam"
  = Some (Ex.line "1 0 0 1 0 0 0 1 0 0 0 1" +:+ Ex.line "0.5 0 0 1 0.5 0.5").
Proof. vm_compute. reflexivity. Qed.

(** A tab inside an argument does not quote it; a space does. *)
Example format_cmd_tab_inside :
  format_cmd ["a" +:+ tab +:+ "b"; "c d"]
  = "a" +:+ tab +:+ "b" +:+ " " +:+ dquote +:+ "c d" +:+ dquote +:+ " ".
Proof. vm_compute. reflexivity. Qed.

(** An argument that is a tab quotes them all. *)
Example format_cmd_tab_argument :
  format_cmd ["x"; tab]
  = dquote +:+ "x" +:+ dquote +:+ " " +:+ dquote +:+ tab +:+ dquote +:+ " ".
Proof. vm_compute. reflexivity. Qed.

(** An image path that ends in a slash has no file name: its undistorted
    copy is [.jpg] and its camera file [.jpg.cam]. *)
Example undistorted_image_without_name :
  undistorted_image "u" "data/cam1/" = "u/.jpg"
  /\ cam_path (undistorted_image "u" "data/cam1/") = "u/.jpg.cam".
Proof. split; vm_compute; reflexivity. Qed.
